(** * A shallow embedding of [src/meraki_requests_stage.py]

    The Meraki client layer: credential clean-up and masking, the request
    helpers [_get] and [_put] under their [tenacity] retry decorator, the
    rate-limit sleep, and the name-to-id resolvers.

    Python [str] values are sequences of characters; the characters modelled
    here are the code points 0..255, on which [str.strip] and [str.lower] are
    given below as CPython computes them. *)

From Stdlib Require Import Ascii String DecimalString ZArith Lia Bool Arith List.
Import ListNotations.

Set Implicit Arguments.

(** ** Python strings *)

Definition str := list ascii.

(** A literal of the source. *)
Definition lit (s : string) : str := list_ascii_of_string s.

Definition dquote : ascii := "034"%char.
Definition squote : ascii := "039"%char.
Definition star : ascii := "*"%char.

Definition str_eqb (a b : str) : bool :=
  if list_eq_dec ascii_dec a b then true else false.

(** Whitespace as [str.strip()] and [int()] see it ([Py_UNICODE_ISSPACE]), on
    the code points below 256. *)
Definition is_space (c : ascii) : bool :=
  let n := nat_of_ascii c in
  ((9 <=? n) && (n <=? 13)) || ((28 <=? n) && (n <=? 32))
  || (n =? 133) || (n =? 160).

Definition is_dquote (c : ascii) : bool := Ascii.eqb c dquote.
Definition is_squote (c : ascii) : bool := Ascii.eqb c squote.

(** [str.lower] on one character: A-Z and the Latin-1 capitals. *)
Definition lower_char (c : ascii) : ascii :=
  let n := nat_of_ascii c in
  if ((65 <=? n) && (n <=? 90))
     || ((192 <=? n) && (n <=? 222) && negb (n =? 215))
  then ascii_of_nat (n + 32) else c.

Definition py_lower (s : str) : str := map lower_char s.

(** [s.lstrip(chars)], [s.rstrip(chars)], [s.strip(chars)]: the characters to
    remove are given by the predicate [p]. *)
Fixpoint lstrip (p : ascii -> bool) (s : str) : str :=
  match s with
  | [] => []
  | c :: t => if p c then lstrip p t else s
  end.

Fixpoint rstrip (p : ascii -> bool) (s : str) : str :=
  match s with
  | [] => []
  | c :: t =>
      match rstrip p t with
      | [] => if p c then [] else [c]
      | t' => c :: t'
      end
  end.

Definition strip (p : ascii -> bool) (s : str) : str := rstrip p (lstrip p s).

(** Does [r] begin, or end, with a character that [p] accepts? *)
Definition starts_with (p : ascii -> bool) (r : str) : bool :=
  match r with
  | [] => false
  | c :: _ => p c
  end.

Fixpoint ends_with (p : ascii -> bool) (r : str) : bool :=
  match r with
  | [] => false
  | [c] => p c
  | _ :: t => ends_with p t
  end.

Definition trimmed (p : ascii -> bool) (r : str) : Prop :=
  starts_with p r = false /\ ends_with p r = false.

(** ** Credential normalizer *)

(** [(v or "")]: [None] and the empty string both give the empty string. *)
Definition or_empty (v : option str) : str :=
  match v with
  | Some s => s
  | None => []
  end.

Definition _clean_key (v : option str) : str :=
  strip is_squote (strip is_dquote (strip is_space (or_empty v))).

Definition _mask (k : str) : str :=
  match k with
  | [] => []
  | _ =>
      if length k <=? 6 then repeat star (length k)
      else firstn 3 k ++ repeat star (length k - 6) ++ skipn (length k - 3) k
  end.

(** The guard of [main]: [not api or api.lower() in {...} or len(api) < 20]. *)
Definition placeholders : list str :=
  [lit "your_api_key_here"; lit "placeholder"].

Definition key_rejected (api : str) : bool :=
  match api with [] => true | _ => false end
  || existsb (str_eqb (py_lower api)) placeholders
  || (length api <? 20).

(** [validate] of the design: true when [main] goes on with the key read from
    the environment, false when it stops. *)
Definition validate (raw_env : option str) : bool :=
  negb (key_rejected (_clean_key raw_env)).

(** ** Python values, exceptions and HTTP messages *)

(** What [r.json()] can return. A dict is kept as its items in order; its
    keys are distinct. *)
#[warnings="-register-all"]
Inductive pyval : Type :=
| PyNone
| PyBool (b : bool)
| PyInt (z : Z)
| PyFloat (bits : Z)
| PyStr (s : str)
| PyList (l : list pyval)
| PyDict (items : list (str * pyval)).

Record response : Type := {
  status_code : Z;
  headers : list (str * str);
  text : str;
  json_body : option pyval   (* [None]: the body is not JSON *)
}.

(** The exceptions that occur. [SystemExit] derives from [BaseException]
    only; every other one derives from [Exception]. *)
Inductive exn : Type :=
| SystemExit (msg : str)
| PyException (msg : str)
| HTTPError (r : response)
| ReadTimeout
| ConnectionError
| JSONDecodeError
| ValueError (detail : str)
| OverflowError
| KeyError (key : str)
| AttributeError (attr : str)
| TypeError
| RetryError (last_attempt : exn)
| OSError (errno : Z)
| InvalidJSONError.

Definition is_Exception (e : exn) : bool :=
  match e with
  | SystemExit _ => false
  | _ => true
  end.

Inductive result (A : Type) : Type :=
| Ok (a : A)
| Raise (e : exn).
Arguments Ok {A} a.
Arguments Raise {A} e.

Inductive http_method : Type := GET | PUT.

Record session : Type := {
  s_headers : list (str * str);
  trust_env : bool;
  proxies : list (str * option str)
}.

Record request : Type := {
  method : http_method;
  url : str;
  sent_headers : list (str * str);
  kwargs : list (str * pyval);
  json_payload : option pyval;
  timeout : Z
}.

(** What comes of a call of [s.get] or [s.put]: a response, an exception
    raised by [requests] once the request is out (a timeout, a connection
    failure), or an exception raised before anything is sent (a keyword the
    call does not take, a payload that cannot be encoded). *)
Inductive outcome : Type :=
| Resp (r : response)
| Fail (e : exn)
| Unsent (e : exn).

(** What is outside the program. [refuses req] is what a call with [req]
    raises before it sends anything; it depends on the call alone, so a
    call that is refused once is refused at every attempt. [answer n req] is
    what comes back for [req] when [n] requests were sent before.
    [clock_refuses secs] tells whether the clock of the platform turns down
    a wait of [secs] seconds; it is asked for long waits only. *)
Record environment : Type := {
  refuses : request -> option exn;
  answer : nat -> request -> result response;
  clock_refuses : Z -> bool
}.

Definition call (env : environment) (n : nat) (req : request) : outcome :=
  match refuses env req with
  | Some e => Unsent e
  | None =>
      match answer env n req with
      | Ok r => Resp r
      | Raise e => Fail e
      end
  end.

Coercion call : environment >-> Funclass.

Definition accepted (env : environment) (req : request) : bool :=
  match refuses env req with
  | Some _ => false
  | None => true
  end.

(** ** The world: what is outside, and what the program did so far *)

Inductive event : Type :=
| EvRequest (r : request)
| EvSleep (secs : Z)        (* [time.sleep] of [rate_limit_sleep] *)
| EvBackoff (secs : Z)      (* the wait of the retry decorator *)
| EvPrint (line : str)      (* [print] of a string *)
| EvPrintVal (v : pyval).   (* [print] of an object *)

(** [net w n req]: the outcome of a call with [req] when [n] requests were
    sent before. *)
Record world : Type := {
  net : environment;
  log : list event
}.

Definition is_request (e : event) : bool :=
  match e with
  | EvRequest _ => true
  | _ => false
  end.

Definition requests_sent (w : world) : nat :=
  length (filter is_request (log w)).

Definition log_event (e : event) (w : world) : world :=
  {| net := net w; log := log w ++ [e] |}.

Definition start (t : environment) : world :=
  {| net := t; log := [] |}.

(** ** Computations that act on the world and may raise *)

Definition M (A : Type) : Type := world -> result A * world.

Definition ret {A} (a : A) : M A := fun w => (Ok a, w).

Definition raise {A} (e : exn) : M A := fun w => (Raise e, w).

Definition bind {A B} (c : M A) (k : A -> M B) : M B :=
  fun w =>
    match c w with
    | (Ok a, w') => k a w'
    | (Raise e, w') => (Raise e, w')
    end.

Definition lift {A} (r : result A) : M A := fun w => (r, w).

Definition emit (e : event) : M unit := fun w => (Ok tt, log_event e w).

Definition when (b : bool) (c : M unit) : M unit := if b then c else ret tt.

Declare Scope py_scope.
Delimit Scope py_scope with py.
Notation "x <- c ;; k" := (bind c (fun x => k))
  (at level 61, c at next level, right associativity) : py_scope.
Notation "c ;; k" := (bind c (fun _ => k))
  (at level 61, right associativity) : py_scope.
Local Open Scope py_scope.

(** ** Builtins *)

Fixpoint dict_get {V : Type} (d : list (str * V)) (key : str) : option V :=
  match d with
  | [] => None
  | (k, v) :: rest => if str_eqb k key then Some v else dict_get rest key
  end.

(** [o.get(key)]: only a dict has the method; a missing key gives [None]. *)
Definition py_get (o : pyval) (key : str) : result pyval :=
  match o with
  | PyDict d =>
      match dict_get d key with
      | Some v => Ok v
      | None => Ok PyNone
      end
  | _ => Raise (AttributeError (lit "get"))
  end.

(** [o[key]] with a string key, as the resolvers use it on an entry for which
    [o.get] has just answered. *)
Definition py_getitem (o : pyval) (key : str) : result pyval :=
  match o with
  | PyDict d =>
      match dict_get d key with
      | Some v => Ok v
      | None => Raise (KeyError key)
      end
  | _ => Raise TypeError
  end.

(** [v == name] for a string [name]. *)
Definition py_eq_str (v : pyval) (name : str) : bool :=
  match v with
  | PyStr s => str_eqb s name
  | _ => false
  end.

(** [for o in data]: the elements of a list, the keys of a dict, the
    characters of a string. *)
Definition py_iter (data : pyval) : result (list pyval) :=
  match data with
  | PyList l => Ok l
  | PyDict d => Ok (map (fun kv => PyStr (fst kv)) d)
  | PyStr s => Ok (map (fun c => PyStr [c]) s)
  | _ => Raise TypeError
  end.

Definition py_len (data : pyval) : result nat :=
  match data with
  | PyList l => Ok (length l)
  | PyDict d => Ok (length d)
  | PyStr s => Ok (length s)
  | _ => Raise TypeError
  end.

(** [str(n)] for a length. *)
Definition str_of_nat (n : nat) : str :=
  list_ascii_of_string (NilEmpty.string_of_uint (Nat.to_uint n)).

Definition is_digit (c : ascii) : bool :=
  let n := nat_of_ascii c in (48 <=? n) && (n <=? 57).

Definition digit_val (c : ascii) : Z := Z.of_nat (nat_of_ascii c - 48).

(** The digits at the head of an [int] literal, single underscores allowed
    between two of them: their value, how many they are, and what follows
    them. *)
Fixpoint scan_digits (acc : Z) (count : nat) (after_digit : bool) (s : str)
  : option (Z * nat * str) :=
  match s with
  | c :: t =>
      if is_digit c then scan_digits (10 * acc + digit_val c) (S count) true t
      else if Ascii.eqb c "_"%char
      then (if after_digit then scan_digits acc count false t else None)
      else (if after_digit then Some (acc, count, s) else None)
  | [] => if after_digit then Some (acc, count, []) else None
  end.

(** The whitespace [int] skips around a literal: of the ASCII characters
    only tab to carriage return and the space (not U+001C to U+001F, which
    [str.strip] removes), and the two further spaces below 256. *)
Definition is_int_space (c : ascii) : bool :=
  let n := nat_of_ascii c in
  ((9 <=? n) && (n <=? 13)) || (n =? 32) || (n =? 133) || (n =? 160).

(** [sys.get_int_max_str_digits()], as the interpreter starts. *)
Definition int_max_str_digits : nat := 4300.

Definition digit_limit_message (count : nat) : str :=
  lit "Exceeds the limit (4300 digits) for integer string conversion: value has "
  ++ str_of_nat count
  ++ lit " digits; use sys.set_int_max_str_digits() to increase the limit".

(** [int(s)] in base 10: whitespace, an optional sign, digits, whitespace.
    More than 4300 digits are a [ValueError] with the message of the limit,
    whatever follows them; anything else that is not a literal is a
    [ValueError] naming [s]. *)
Definition py_int (s : str) : result Z :=
  let '(negative, body) :=
    match lstrip is_int_space s with
    | c :: t =>
        if Ascii.eqb c "-"%char then (true, t)
        else if Ascii.eqb c "+"%char then (false, t)
        else (false, c :: t)
    | [] => (false, [])
    end in
  match scan_digits 0 0 false body with
  | Some (z, count, rest) =>
      if int_max_str_digits <? count
      then Raise (ValueError (digit_limit_message count))
      else
        match lstrip is_int_space rest with
        | [] => Ok (if negative then - z else z)%Z
        | _ :: _ => Raise (ValueError s)
        end
  | None => Raise (ValueError s)
  end.

(** Waits of up to 2^32 - 1 milliseconds are taken to be within what the
    clock of every host accepts; a longer one is for that clock to take or
    to turn down. *)
Definition short_sleep : Z := 4294967.

(** [time.sleep(secs)] with an [int]: the value must fit the nanosecond
    counter of the interpreter and be non-negative; a long wait can still
    be turned down by the clock of the platform, with [OSError] (errno 22)
    and at once. *)
Definition time_sleep (secs : Z) : M unit :=
  fun w =>
    if (secs <? -9223372036)%Z || (9223372036 <? secs)%Z
    then (Raise OverflowError, w)
    else if (secs <? 0)%Z
    then (Raise (ValueError (lit "sleep length must be non-negative")), w)
    else if (short_sleep <? secs)%Z && clock_refuses (net w) secs
    then (Raise (OSError 22), w)
    else (Ok tt, log_event (EvSleep secs) w).

Definition print (line : str) : M unit := emit (EvPrint line).
Definition print_val (v : pyval) : M unit := emit (EvPrintVal v).

(** ** requests *)

(** [resp.headers.get(name, default)]: header names compare without case. *)
Fixpoint headers_get (h : list (str * str)) (name default : str) : str :=
  match h with
  | [] => default
  | (k, v) :: rest =>
      if str_eqb (py_lower k) (py_lower name) then v
      else headers_get rest name default
  end.

(** [s.get(...)] or [s.put(...)] with the request [req]: a call that
    fails before sending leaves no request behind. *)
Definition send (req : request) : M response :=
  fun w =>
    let w' := log_event (EvRequest req) w in
    match net w (requests_sent w) req with
    | Resp r => (Ok r, w')
    | Fail e => (Raise e, w')
    | Unsent e => (Raise e, w)
    end.

Definition get_request (s : session) (u : str) (kw : list (str * pyval)) : request :=
  {| method := GET; url := u; sent_headers := s_headers s; kwargs := kw;
     json_payload := None; timeout := 20 |}.

Definition put_request (s : session) (u : str) (payload : pyval) : request :=
  {| method := PUT; url := u; sent_headers := s_headers s; kwargs := [];
     json_payload := Some payload; timeout := 20 |}.

(** [r.raise_for_status()] *)
Definition raise_for_status (r : response) : M unit :=
  if (400 <=? status_code r)%Z && (status_code r <? 600)%Z
  then raise (HTTPError r) else ret tt.

(** [r.json()] *)
Definition json (r : response) : M pyval :=
  match json_body r with
  | Some v => ret v
  | None => raise JSONDecodeError
  end.

(** ** tenacity *)

(** The arguments of [@retry]. [stop_after_attempt n] stops once the attempt
    number reaches [n]; [reraise] is [False] unless given, and then the
    caller gets a [RetryError] holding the last attempt. Only exceptions
    deriving from [Exception] are retried; others pass through at once. *)
Record retry_policy : Type := {
  stop_after_attempt : nat;
  wait : nat -> Z;
  reraise : bool
}.

(** [wait_exponential(min=mn, max=mx)] with multiplier 1 and base 2. *)
Definition wait_exponential (mn mx : Z) (attempt_number : nat) : Z :=
  Z.max (Z.max 0 mn) (Z.min (2 ^ Z.of_nat (attempt_number - 1)) mx).

(** The retry loop at attempt [attempt_number], with [left] further attempts
    allowed before the stop condition holds. *)
Fixpoint retry_from {A} (p : retry_policy) (left attempt_number : nat)
    (fn : M A) : M A :=
  fun w =>
    match fn w with
    | (Ok a, w') => (Ok a, w')
    | (Raise e, w') =>
        if is_Exception e then
          match left with
          | O => (Raise (if reraise p then e else RetryError e), w')
          | S left' =>
              retry_from p left' (S attempt_number) fn
                (log_event (EvBackoff (wait p attempt_number)) w')
          end
        else (Raise e, w')
    end.

Definition retry {A} (p : retry_policy) (fn : M A) : M A :=
  retry_from p (stop_after_attempt p - 1) 1 fn.

(** [@retry(stop=stop_after_attempt(5), wait=wait_exponential(min=1, max=8))] *)
Definition policy : retry_policy :=
  {| stop_after_attempt := 5; wait := wait_exponential 1 8; reraise := false |}.

(** ** The client *)

Definition BASE : str := lit "https://api.meraki.com/api/v1".

Definition make_headers (api_key : str) : list (str * str) :=
  let k := _clean_key (Some api_key) in
  [ (lit "Authorization", lit "Bearer " ++ k);
    (lit "X-Cisco-Meraki-API-Key", k);
    (lit "Accept", lit "application/json");
    (lit "Content-Type", lit "application/json");
    (lit "User-Agent", lit "ena-mac-requests/1.0") ].

(** The headers of a new [requests.Session()]. The user agent carries the
    version of the library after the name, and [Accept-Encoding] lists more
    codings when their decoders are installed. *)
Definition default_headers : list (str * str) :=
  [ (lit "User-Agent", lit "python-requests");
    (lit "Accept-Encoding", lit "gzip, deflate");
    (lit "Accept", lit "*/*");
    (lit "Connection", lit "keep-alive") ].

(** [h[name] = value] on the headers of a session: names compare without
    case; a header that is there keeps its place and takes the new spelling
    and value, another one goes to the end. *)
Fixpoint header_set (h : list (str * str)) (name value : str) : list (str * str) :=
  match h with
  | [] => [(name, value)]
  | (k, v) :: rest =>
      if str_eqb (py_lower k) (py_lower name) then (name, value) :: rest
      else (k, v) :: header_set rest name value
  end.

(** [h.update(more)] *)
Definition headers_update (h more : list (str * str)) : list (str * str) :=
  fold_left (fun acc kv => header_set acc (fst kv) (snd kv)) more h.

Definition meraki_session (hdrs : list (str * str)) : session :=
  {| s_headers := headers_update default_headers hdrs; trust_env := false;
     proxies := [(lit "http", None); (lit "https", None)] |}.

Definition rate_limit_sleep (resp : response) : M unit :=
  if (status_code resp =? 429)%Z then
    retry_after <- lift (py_int (headers_get (headers resp) (lit "Retry-After") (lit "1"))) ;;
    time_sleep retry_after
  else ret tt.

Definition nl : str := ["010"%char].

(** The text of the [SystemExit] of [_get], before the response body. *)
Definition unauthorized_guidance : str :=
  lit "401 Unauthorized from Meraki API." ++ nl ++
  lit "Checklist:" ++ nl ++
  lit " - Org > Settings > Enable Dashboard API access" ++ nl ++
  lit " - API key user has org access" ++ nl ++
  lit " - If API IP allow list is on, your public IP is whitelisted" ++ nl ++
  lit " - If unsure, regenerate key and update .env" ++ nl ++
  lit "Response body: ".

(** The body of [_get] after the request: the status checks and the
    decoding. *)
Definition _get_checks (r : response) : M pyval :=
  when (status_code r =? 401)%Z
    (raise (SystemExit (unauthorized_guidance ++ firstn 400 (text r)))) ;;
  when (status_code r =? 429)%Z
    (rate_limit_sleep r ;; raise (PyException (lit "429 rate limited"))) ;;
  raise_for_status r ;;
  json r.

(** The body of [_get], one attempt. *)
Definition _get_attempt (s : session) (u : str) (kw : list (str * pyval)) : M pyval :=
  r <- send (get_request s u kw) ;;
  _get_checks r.

Definition _get (s : session) (u : str) (kw : list (str * pyval)) : M pyval :=
  retry policy (_get_attempt s u kw).

(** The body of [_put] after the request. *)
Definition _put_checks (r : response) : M pyval :=
  when (status_code r =? 429)%Z
    (rate_limit_sleep r ;; raise (PyException (lit "429"))) ;;
  raise_for_status r ;;
  json r.

(** The body of [_put], one attempt. *)
Definition _put_attempt (s : session) (u : str) (payload : pyval) : M pyval :=
  r <- send (put_request s u payload) ;;
  _put_checks r.

Definition _put (s : session) (u : str) (payload : pyval) : M pyval :=
  retry policy (_put_attempt s u payload).

(** The loop of both resolvers:
    [for o in items: if o.get("name") == name: return o["id"]], then
    [return None]. *)
Fixpoint scan_for_name (items : list pyval) (name : str) : result pyval :=
  match items with
  | [] => Ok PyNone
  | o :: rest =>
      match py_get o (lit "name") with
      | Raise e => Raise e
      | Ok v =>
          if py_eq_str v name then py_getitem o (lit "id")
          else scan_for_name rest name
      end
  end.

Definition for_name (data : pyval) (name : str) : M pyval :=
  items <- lift (py_iter data) ;;
  lift (scan_for_name items name).

Definition orgs_url : str := BASE ++ lit "/organizations".

Definition nets_url (org_id : str) : str :=
  BASE ++ lit "/organizations/" ++ org_id ++ lit "/networks".

Definition find_org_id_by_name (s : session) (name : str) : M pyval :=
  orgs <- _get s orgs_url [] ;;
  for_name orgs name.

Definition find_network_id (s : session) (org_id net_name : str) : M pyval :=
  nets <- _get s (nets_url org_id) [] ;;
  for_name nets net_name.

(** [[o.get("name") for o in data]] *)
Fixpoint names_of (items : list pyval) : result (list pyval) :=
  match items with
  | [] => Ok []
  | o :: rest =>
      match py_get o (lit "name") with
      | Raise e => Raise e
      | Ok v =>
          match names_of rest with
          | Raise e => Raise e
          | Ok vs => Ok (v :: vs)
          end
      end
  end.

(** U+2705, as the output stream carries it. *)
Definition check_mark : str :=
  ["226"%char; "156"%char; "133"%char].

Definition sanity_line (n : nat) : str :=
  check_mark ++ lit " Sanity: fetched " ++ str_of_nat n ++ lit " orgs".

(** [sanity_list_orgs] has no [return]: it gives [None]. *)
Definition sanity_list_orgs (s : session) : M pyval :=
  data <- _get s orgs_url [] ;;
  n <- lift (py_len data) ;;
  print (sanity_line n) ;;
  items <- lift (py_iter data) ;;
  names <- lift (names_of items) ;;
  print_val (PyList (firstn 5 names)) ;;
  ret PyNone.

(** ** Transports used in the examples *)

Definition ok_response (v : pyval) : response :=
  {| status_code := 200; headers := []; text := []; json_body := Some v |}.

Definition status_response (code : Z) (hdrs : list (str * str)) (body : str) : response :=
  {| status_code := code; headers := hdrs; text := body; json_body := None |}.

(** The keywords [Session.get] passes on to [Session.request], [timeout]
    left out: the call of [_get] gives it already. *)
Definition request_keywords : list str :=
  [lit "params"; lit "data"; lit "headers"; lit "cookies"; lit "files";
   lit "auth"; lit "allow_redirects"; lit "proxies"; lit "hooks";
   lit "stream"; lit "verify"; lit "cert"; lit "json"].

(** A float that is an infinity or not a number: all exponent bits set. *)
Definition nonfinite_bits (bits : Z) : bool :=
  ((bits / 2 ^ 52) mod 2 ^ 11 =? 2047)%Z.

Fixpoint has_nonfinite (v : pyval) : bool :=
  match v with
  | PyFloat bits => nonfinite_bits bits
  | PyList l => existsb has_nonfinite l
  | PyDict d => existsb (fun kv => has_nonfinite (snd kv)) d
  | _ => false
  end.

(** What the call raises before sending, as far as the names of the
    keywords and the payload of [_put] tell: [TypeError] for a second
    [timeout] or a keyword that [Session.request] does not have,
    [InvalidJSONError] for a payload with an infinity or a NaN. *)
Definition library_check (req : request) : option exn :=
  if existsb (fun kv => negb (existsb (str_eqb (fst kv)) request_keywords))
       (kwargs req)
  then Some TypeError
  else
    match json_payload req with
    | Some v => if has_nonfinite v then Some InvalidJSONError else None
    | None => None
    end.

(** The clock of a Linux host that is up for [uptime_ns] nanoseconds: the
    deadline must fit a signed 64-bit count of nanoseconds. *)
Definition linux_clock (uptime_ns : Z) (secs : Z) : bool :=
  (2 ^ 63 - 1 <? secs * 10 ^ 9 + uptime_ns)%Z.

Definition one_hour_ns : Z := 3600 * 10 ^ 9.

(** Every request that the library lets out gets the answer [r]. *)
Definition always (r : response) : environment :=
  {| refuses := library_check;
     answer := fun _ _ => Ok r;
     clock_refuses := linux_clock one_hour_ns |}.

(** The first answers come from the list, [last] answers afterwards. *)
Definition scripted (rs : list response) (last : response) : environment :=
  {| refuses := library_check;
     answer := fun n _ => Ok (nth n rs last);
     clock_refuses := linux_clock one_hour_ns |}.

(** Every call comes to [o], whatever the request, and the clock takes
    every wait. *)
Definition constantly (o : outcome) : environment :=
  {| refuses := fun _ => match o with Unsent e => Some e | _ => None end;
     answer := fun _ _ => match o with Resp r => Ok r | Fail e | Unsent e => Raise e end;
     clock_refuses := fun _ => false |}.

Definition entity (id name : string) : pyval :=
  PyDict [(lit "id", PyStr (lit id)); (lit "name", PyStr (lit name))].

Definition two_orgs : list pyval := [entity "1" "A"; entity "2" "B"].

Definition a_session : session :=
  meraki_session (make_headers (lit "0123456789abcdef0123456789abcdef01234567")).

Definition http_date : str := lit "Wed, 21 Oct 2015 07:28:00 GMT".

Definition unauthorized : response :=
  status_response 401 [] (lit "{'errors': ['Invalid API key']}").

Definition server_error : response :=
  status_response 500 [] (lit "oops").

Definition a_url : str := BASE ++ lit "/devices/Q4CB-5A2N-KS54/switch/ports/4".

Definition rate_limited (hdrs : list (str * str)) : response :=
  status_response 429 hdrs (lit "slow down").

Definition unnamed_entry : list (str * pyval) := [(lit "id", PyStr (lit "9"))].

Definition orgs_with_unnamed : list pyval :=
  [entity "1" "A"; PyDict unnamed_entry; entity "2" "B"].

(** ** Notions used to state the properties *)

(** What one attempt [fn] gives when the call comes to [o] and the clock
    takes every wait. *)
Definition attempt_result {A} (fn : M A) (o : outcome) : result A :=
  fst (fn (start (constantly o))).

(** [c] sends nothing and keeps what is outside. *)
Definition quiet {A} (c : M A) : Prop :=
  forall w,
    net (snd (c w)) = net w
    /\ requests_sent (snd (c w)) = requests_sent w.

(** Two results that the retry loop takes alike: the same result, or two
    exceptions that are both retried. *)
Definition alike {A} (r1 r2 : result A) : Prop :=
  r1 = r2
  \/ exists e1 e2,
      r1 = Raise e1 /\ r2 = Raise e2
      /\ is_Exception e1 = true /\ is_Exception e2 = true.

(** The world in which attempt [i + 1] of a retried call starts, when the
    attempts before it failed and were retried; [n] is the number of the
    first attempt. *)
Fixpoint attempt_world {A} (p : retry_policy) (fn : M A) (n : nat) (w : world)
    (i : nat) : world :=
  match i with
  | O => w
  | S j =>
      log_event (EvBackoff (wait p (n + j))) (snd (fn (attempt_world p fn n w j)))
  end.

(** What attempt [i + 1] of a call retried under [policy] comes to, when
    the attempts before it failed and were retried. *)
Definition nth_attempt {A} (fn : M A) (w : world) (i : nat) : result A :=
  fst (fn (attempt_world policy fn 1 w i)).

Definition is_sleep (e : event) : bool :=
  match e with
  | EvSleep _ => true
  | _ => false
  end.

(** The entry is a dict whose ["name"] is the string [name]. *)
Definition has_name (o : pyval) (name : str) : bool :=
  match o with
  | PyDict d =>
      match dict_get d (lit "name") with
      | Some v => py_eq_str v name
      | None => false
      end
  | _ => false
  end.


Definition field (o : pyval) (key : str) : option pyval :=
  match o with
  | PyDict d => dict_get d key
  | _ => None
  end.


(** The value [make_headers] puts under the API-key header. *)
Definition header_key (hdrs : list (str * str)) : str :=
  headers_get hdrs (lit "X-Cisco-Meraki-API-Key") [].

Definition is_backoff (e : event) : bool :=
  match e with
  | EvBackoff _ => true
  | _ => false
  end.

(** What was added to the log between [w] and [w']. *)
Definition new_events (w w' : world) : list event :=
  skipn (length (log w)) (log w').

(** [c] keeps the transport and adds nothing to the log but rate-limit
    sleeps. *)
Definition only_sleeps {A} (c : M A) : Prop :=
  forall w, exists evs,
    snd (c w) = {| net := net w; log := log w ++ evs |}
    /\ forallb is_sleep evs = true.

(** The events a call of [_get] or [_put] can add. *)
Definition executor_event (e : event) : bool :=
  is_request e || is_backoff e || is_sleep e.

Definition backoff_schedule : list event :=
  [EvBackoff 1; EvBackoff 2; EvBackoff 4; EvBackoff 8].

(** The result ends the retry loop: a value, or an exception that is not
    retried. *)
Definition is_final {A} (r : result A) : bool :=
  match r with
  | Ok _ => true
  | Raise e => negb (is_Exception e)
  end.

(** [r.raise_for_status()] raises for this status. *)
Definition is_error_status (code : Z) : bool :=
  (400 <=? code)%Z && (code <? 600)%Z.

Definition no_content : response :=
  {| status_code := 204; headers := []; text := []; json_body := None |}.

Definition not_modified (v : pyval) : response :=
  {| status_code := 304; headers := []; text := []; json_body := Some v |}.

Definition is_dict (o : pyval) : bool :=
  match o with
  | PyDict _ => true
  | _ => false
  end.

(** [o.get("name")] for a dict. *)
Definition name_or_none (o : pyval) : pyval :=
  match field o (lit "name") with
  | Some v => v
  | None => PyNone
  end.

(** A dict entry that the scan passes over. *)
Definition passed_over (name : str) (o : pyval) : bool :=
  is_dict o && negb (has_name o name).

Definition retry_after_of (r : response) : str :=
  headers_get (headers r) (lit "Retry-After") (lit "1").

Definition max_sleep : Z := 9223372036.

(** The clock takes a wait of [n] seconds: it is short, or the platform
    does not turn it down. *)
Definition clock_takes (w : world) (n : Z) : Prop :=
  (n <= short_sleep)%Z \/ clock_refuses (net w) n = false.

(** The call of [_get] in [find_org_id_by_name] and [sanity_list_orgs], and
    the one in [find_network_id], from [w] to [w'] with the body [data]. *)
Definition org_list_is (s : session) (w w' : world) (data : pyval) : Prop :=
  _get s orgs_url [] w = (Ok data, w').

Definition net_list_is (s : session) (org_id : str) (w w' : world)
    (data : pyval) : Prop :=
  _get s (nets_url org_id) [] w = (Ok data, w').

(** What the loop of the resolvers comes to on a body that is not a list:
    it runs over the keys of an object and the characters of a string, and
    cannot run over [null], a boolean or a number. *)
Definition not_list_outcome (data : pyval) : option (result pyval) :=
  match data with
  | PyList _ => None
  | PyDict [] | PyStr [] => Some (Ok PyNone)
  | PyDict _ | PyStr _ => Some (Raise (AttributeError (lit "get")))
  | PyNone | PyBool _ | PyInt _ | PyFloat _ => Some (Raise TypeError)
  end.

Definition error_object : pyval :=
  PyDict [(lit "errors", PyList [PyStr (lit "Invalid organization")])].

Definition entry_without_id : pyval :=
  PyDict [(lit "name", PyStr (lit "B"))].

Definition six_orgs : list pyval :=
  [entity "1" "A"; entity "2" "B"; PyDict unnamed_entry; entity "4" "D";
   entity "5" "E"; entity "6" "F"].

(** ** The program *)

Record config : Type := {
  organization_name : str;
  network_name : str;
  device_serial : str;
  target_ports : list str;
  staging_vlan : Z;
  dry_run : bool;
  teams_notify : bool
}.

Definition CONFIG : config :=
  {| organization_name := lit "Demo_Silvan";
     network_name := lit "API Network";
     device_serial := lit "Q4CB-5A2N-KS54";
     target_ports := [lit "4"; lit "6"];
     staging_vlan := 99;
     dry_run := true;
     teams_notify := false |}.

(** What [main] finds on its host: the paths it computes, as it prints
    them, the assignments of the [.env] file when the file exists (the dict
    python-dotenv makes of it, one value for a name), and the environment of
    the process. *)
Record host : Type := {
  cwd : str;
  script_path : str;
  project_root : str;
  dotenv_path : str;
  dotenv_file : option (list (str * str));
  environ : list (str * str)
}.

(** [load_dotenv(path, override=False)]: a variable of the file is set
    when the environment does not have it. *)
Fixpoint load_dotenv (file env : list (str * str)) : list (str * str) :=
  match file with
  | [] => env
  | (k, v) :: rest =>
      load_dotenv rest
        match dict_get env k with
        | Some _ => env
        | None => env ++ [(k, v)]
        end
  end.

Definition dotenv_exists (h : host) : bool :=
  match dotenv_file h with
  | Some _ => true
  | None => false
  end.

Definition environ_after_load (h : host) : list (str * str) :=
  match dotenv_file h with
  | Some file => load_dotenv file (environ h)
  | None => environ h
  end.

(** [os.environ.get("MERAKI_API_KEY_ENAUTO")] in [main]. *)
Definition raw_env (h : host) : option str :=
  dict_get (environ_after_load h) (lit "MERAKI_API_KEY_ENAUTO").

(** [str(b)] for a [bool]. *)
Definition str_of_bool (b : bool) : str :=
  if b then lit "True" else lit "False".

Definition nonempty (s : str) : bool :=
  match s with
  | [] => false
  | _ => true
  end.

(** [bool(v)]; a float is the bit pattern of a binary64, zero being
    [0.0] or [-0.0]. *)
Definition py_truthy (v : pyval) : bool :=
  match v with
  | PyNone => false
  | PyBool b => b
  | PyInt z => negb (z =? 0)%Z
  | PyFloat bits => negb ((bits =? 0)%Z || (bits =? 2 ^ 63)%Z)
  | PyStr s => nonempty s
  | PyList l => match l with [] => false | _ => true end
  | PyDict d => match d with [] => false | _ => true end
  end.

(** The lines [main] prints before it looks at the key. *)
Definition report (h : host) (api : str) : list event :=
  [ EvPrint (lit "Working dir:      " ++ cwd h);
    EvPrint (lit "Script path:      " ++ script_path h);
    EvPrint (lit "Project root:     " ++ project_root h);
    EvPrint (lit ".env expected at: " ++ dotenv_path h ++ lit "  (exists="
             ++ str_of_bool (dotenv_exists h) ++ lit ")");
    EvPrint (lit ".env loaded:      " ++ str_of_bool (dotenv_exists h));
    EvPrint (lit "API key present?: " ++ str_of_bool (nonempty api));
    EvPrint (lit "API key (masked): " ++ _mask api) ].

Definition log_events (evs : list event) (w : world) : world :=
  {| net := net w; log := log w ++ evs |}.

Definition key_error_message (h : host) : str :=
  lit "MERAKI_API_KEY_ENAUTO is not a valid-looking key." ++ nl ++
  lit "Fix it by either:" ++ nl ++
  lit " - export MERAKI_API_KEY_ENAUTO=real_key   (in your shell), or" ++ nl ++
  lit " - put MERAKI_API_KEY_ENAUTO=real_key into " ++ dotenv_path h ++ nl ++
  lit "Then rerun the script.".

(** How [main] ends: it returns, an exception of the calls passes through
    it, or one of its [assert] fails. *)
Inductive main_result : Type :=
| Finished
| Exited (e : exn)
| AssertionError (msg : str).

Section Main.
(** [str(v)] for a decoded JSON value, as [print] and the f-string of
    [find_network_id] apply it to the id. *)
Variable py_str : pyval -> str.

Definition main (h : host) : world -> main_result * world :=
  fun w0 =>
    let api := _clean_key (raw_env h) in
    let w1 := log_events (report h api) w0 in
    if key_rejected api then (Exited (SystemExit (key_error_message h)), w1)
    else
      let teams := dict_get (environ_after_load h) (lit "TEAMS_WEBHOOK_URL") in
      let w2 :=
        log_event (EvPrint (lit "Teams webhook present?: "
                            ++ str_of_bool (nonempty (or_empty teams)))) w1 in
      let session := meraki_session (make_headers api) in
      match sanity_list_orgs session w2 with
      | (Raise e, w3) => (Exited e, w3)
      | (Ok _, w3) =>
          let w4 := log_event (EvPrint (check_mark ++ lit " HTTP layer ready")) w3 in
          match find_org_id_by_name session (organization_name CONFIG) w4 with
          | (Raise e, w5) => (Exited e, w5)
          | (Ok org_id, w5) =>
              if negb (py_truthy org_id)
              then (AssertionError (lit "Organization not found"), w5)
              else
                let w6 :=
                  log_event (EvPrint (check_mark ++ lit " Org ID: " ++ py_str org_id)) w5 in
                match find_network_id session (py_str org_id) (network_name CONFIG) w6 with
                | (Raise e, w7) => (Exited e, w7)
                | (Ok net_id, w7) =>
                    if negb (py_truthy net_id)
                    then (AssertionError (lit "Network not found"), w7)
                    else
                      (Finished,
                       log_event
                         (EvPrint (check_mark ++ lit " Network ID: " ++ py_str net_id))
                         w7)
                end
          end
      end.
End Main.

(** [str] on the values it is known for here without loss: a string is
    itself, [None] is its name. *)
Definition str_of_id (v : pyval) : str :=
  match v with
  | PyStr s => s
  | _ => lit "None"
  end.

(** A request as [main] sends them: a GET with the headers of the session
    made from the key it read, no further argument, no payload, and the
    timeout of 20 seconds. *)
Definition main_request (h : host) (r : request) : Prop :=
  method r = GET
  /\ sent_headers r
     = s_headers (meraki_session (make_headers (_clean_key (raw_env h))))
  /\ kwargs r = []
  /\ json_payload r = None
  /\ timeout r = 20%Z.

(** From [w] to [w'] the transport is kept, and what the log gains has at
    most [n] requests, all of them as [P] says. *)
Definition extends (P : request -> Prop) (n : nat) (w w' : world) : Prop :=
  exists evs,
    w' = {| net := net w; log := log w ++ evs |}
    /\ (forall r, In (EvRequest r) evs -> P r)
    /\ length (filter is_request evs) <= n.

Definition reads_at_most {A} (P : request -> Prop) (n : nat) (c : M A) : Prop :=
  forall w, extends P n w (snd (c w)).

Definition a_host (key : option string) : host :=
  {| cwd := lit "/home/ena/lab";
     script_path := lit "/home/ena/lab/src/meraki_requests_stage.py";
     project_root := lit "/home/ena/lab";
     dotenv_path := lit "/home/ena/lab/.env";
     dotenv_file :=
       match key with
       | Some k => Some [(lit "MERAKI_API_KEY_ENAUTO", lit k)]
       | None => None
       end;
     environ := [(lit "HOME", lit "/home/ena")] |}.

Definition good_key : string := "0123456789abcdef0123456789abcdef01234567".

(** The session [main] builds for the key it reads, and the request for
    the organization list it sends twice. *)
Definition main_session (h : host) : session :=
  meraki_session (make_headers (_clean_key (raw_env h))).

Definition orgs_request (h : host) : request :=
  get_request (main_session h) orgs_url [].

Definition nets_request (h : host) (org_id : str) : request :=
  get_request (main_session h) (nets_url org_id) [].

Definition demo_org : pyval :=
  PyDict [(lit "id", PyStr (lit "549236")); (lit "name", PyStr (lit "Demo_Silvan"))].

Definition api_network : pyval :=
  PyDict [(lit "id", PyStr (lit "L_6468")); (lit "name", PyStr (lit "API Network"))].

(** Organization lists for the first two requests, the network list for
    the third. *)
Definition lab_transport : environment :=
  scripted [ok_response (PyList [entity "1" "A"; demo_org]);
            ok_response (PyList [entity "1" "A"; demo_org])]
    (ok_response (PyList [api_network])).

Definition key_name : str := lit "MERAKI_API_KEY_ENAUTO".

(** * Properties *)

(** ** Strings *)

Lemma str_eqb_eq (a b : str) : str_eqb a b = true <-> a = b.
Proof.
  unfold str_eqb. destruct (list_eq_dec ascii_dec a b); split; congruence.
Qed.

Lemma str_eqb_refl (a : str) : str_eqb a a = true.
Proof. now apply str_eqb_eq. Qed.

Lemma lstrip_split (p : ascii -> bool) (s : str) :
  exists pre, s = pre ++ lstrip p s /\ forallb p pre = true.
Proof.
  induction s as [|c t IH]; simpl.
  - exists []. auto.
  - destruct (p c) eqn:Hc.
    + destruct IH as (pre & Heq & Hall). exists (c :: pre). simpl.
      rewrite Hc, Hall. split; [congruence | reflexivity].
    + exists []. auto.
Qed.

Lemma lstrip_starts (p : ascii -> bool) (s : str) :
  starts_with p (lstrip p s) = false.
Proof.
  induction s as [|c t IH]; simpl; [reflexivity|].
  destruct (p c) eqn:Hc; [exact IH | simpl; exact Hc].
Qed.

Lemma rstrip_split (p : ascii -> bool) (s : str) :
  exists post, s = rstrip p s ++ post /\ forallb p post = true.
Proof.
  induction s as [|c t IH]; simpl.
  - exists []. auto.
  - destruct IH as (post & Heq & Hall).
    destruct (rstrip p t) as [|d t'] eqn:Ht.
    + destruct (p c) eqn:Hc.
      * exists (c :: post). simpl in *. rewrite Hc, Hall. subst t. auto.
      * exists post. simpl in *. subst t. auto.
    + exists post. split; [|exact Hall]. simpl. now rewrite Heq at 1.
Qed.

Lemma rstrip_ends (p : ascii -> bool) (s : str) :
  ends_with p (rstrip p s) = false.
Proof.
  induction s as [|c t IH]; simpl; [reflexivity|].
  destruct (rstrip p t) as [|d t'] eqn:Ht.
  - destruct (p c) eqn:Hc; simpl; auto.
  - simpl in *. exact IH.
Qed.

Lemma rstrip_starts (p : ascii -> bool) (s : str) :
  starts_with p s = false -> starts_with p (rstrip p s) = false.
Proof.
  destruct s as [|c t]; simpl; [reflexivity|]. intros Hc.
  destruct (rstrip p t); [rewrite Hc|]; simpl; auto.
Qed.

Lemma strip_split (p : ascii -> bool) (s : str) :
  exists pre post,
    s = pre ++ strip p s ++ post
    /\ forallb p pre = true /\ forallb p post = true
    /\ trimmed p (strip p s).
Proof.
  unfold strip, trimmed.
  destruct (lstrip_split p s) as (pre & Hpre & Hall1).
  destruct (rstrip_split p (lstrip p s)) as (post & Hpost & Hall2).
  exists pre, post. repeat split; auto.
  - now rewrite <- Hpost.
  - apply rstrip_starts, lstrip_starts.
  - apply rstrip_ends.
Qed.

(** ** Credential normalizer *)

Example clean_plain : _clean_key (Some (lit "  'abc'  ")) = lit "abc".
Proof. reflexivity. Qed.

Example clean_inner_space :
  _clean_key (Some (squote :: lit " abc " ++ [squote])) = lit " abc ".
Proof. reflexivity. Qed.

Example clean_mixed_layers :
  _clean_key (Some ([dquote; squote] ++ lit "abc" ++ [squote; dquote])) = lit "abc".
Proof. reflexivity. Qed.

(** C7, as the claim states it, fails: an input wrapped in two layers of
    double quotes does not keep the inner layer; both layers are removed. *)
Lemma clean_key_two_layers :
  _clean_key (Some ([dquote; dquote] ++ lit "abc" ++ [dquote; dquote])) = lit "abc"
  /\ _clean_key (Some ([dquote; dquote] ++ lit "abc" ++ [dquote; dquote]))
     <> [dquote] ++ lit "abc" ++ [dquote].
Proof. split; [reflexivity | discriminate]. Qed.

(** C7, amended: [_clean_key] removes the leading and trailing whitespace,
    then every leading and trailing double quote, then every leading and
    trailing single quote: the input is the result inside runs of single
    quotes, inside runs of double quotes, inside runs of whitespace, each
    layer trimmed of its own characters. Absent input gives the empty
    string. *)
Theorem clean_key_layers (v : option str) :
  _clean_key None = []
  /\ exists ws1 dq1 sq1 sq2 dq2 ws2,
      or_empty v = ws1 ++ dq1 ++ sq1 ++ _clean_key v ++ sq2 ++ dq2 ++ ws2
      /\ forallb is_space (ws1 ++ ws2) = true
      /\ forallb is_dquote (dq1 ++ dq2) = true
      /\ forallb is_squote (sq1 ++ sq2) = true
      /\ trimmed is_space (dq1 ++ sq1 ++ _clean_key v ++ sq2 ++ dq2)
      /\ trimmed is_dquote (sq1 ++ _clean_key v ++ sq2)
      /\ trimmed is_squote (_clean_key v).
Proof.
  split; [reflexivity|].
  unfold _clean_key.
  remember (strip is_space (or_empty v)) as r1 eqn:E1.
  remember (strip is_dquote r1) as r2 eqn:E2.
  remember (strip is_squote r2) as r3 eqn:E3.
  destruct (strip_split is_space (or_empty v)) as (ws1 & ws2 & H1 & Hw1 & Hw2 & T1).
  destruct (strip_split is_dquote r1) as (dq1 & dq2 & H2 & Hd1 & Hd2 & T2).
  destruct (strip_split is_squote r2) as (sq1 & sq2 & H3 & Hs1 & Hs2 & T3).
  rewrite <- E1 in H1, T1. rewrite <- E2 in H2, T2. rewrite <- E3 in H3, T3.
  clear E1 E2 E3. subst r2. subst r1.
  rewrite <- ?app_assoc in *.
  exists ws1, dq1, sq1, sq2, dq2, ws2.
  rewrite !forallb_app, Hw1, Hw2, Hd1, Hd2, Hs1, Hs2.
  repeat split; solve [reflexivity | assumption | apply T1 | apply T2 | apply T3].
Qed.

(** ** Masking *)

Example mask_long : _mask (lit "0123456789abcdef") = lit "012**********def".
Proof. reflexivity. Qed.

Lemma mask_short (k : str) :
  length k <= 6 -> _mask k = repeat star (length k).
Proof.
  intros H. unfold _mask. destruct k as [|c t]; [reflexivity|].
  apply Nat.leb_le in H. now rewrite H.
Qed.

Lemma mask_unfold (k : str) :
  6 < length k ->
  _mask k = firstn 3 k ++ repeat star (length k - 6) ++ skipn (length k - 3) k.
Proof.
  intros H. unfold _mask. destruct k as [|c t]; [simpl in H; lia|].
  apply Nat.leb_gt in H. now rewrite H.
Qed.

(** C6, as the claim states it, fails at length 6: the string is masked
    whole, its first three characters are not kept. *)
Lemma mask_six_all_stars :
  6 <= length (lit "abcdef")
  /\ _mask (lit "abcdef") = lit "******"
  /\ firstn 3 (_mask (lit "abcdef")) <> firstn 3 (lit "abcdef").
Proof. repeat split; [simpl; lia | discriminate]. Qed.

(** C6, amended: for every string of more than 6 characters the output of
    [_mask] has the length of the input, its first 3 and last 3 characters
    are those of the input, and every position between is the mask
    character. *)
Theorem mask_keeps_ends (k : str) :
  6 < length k ->
  length (_mask k) = length k
  /\ firstn 3 (_mask k) = firstn 3 k
  /\ skipn (length k - 3) (_mask k) = skipn (length k - 3) k
  /\ forall i, 3 <= i < length k - 3 -> nth_error (_mask k) i = Some star.
Proof.
  intros H. rewrite (mask_unfold k H).
  assert (Ha : length (firstn 3 k) = 3) by (rewrite length_firstn; lia).
  assert (Hb : length (skipn (length k - 3) k) = 3) by (rewrite length_skipn; lia).
  repeat split.
  - rewrite !length_app, repeat_length, Ha, Hb. lia.
  - rewrite firstn_app, Ha, Nat.sub_diag, firstn_firstn. simpl.
    now rewrite app_nil_r.
  - rewrite app_assoc, skipn_app, length_app, repeat_length, Ha.
    replace (length k - 3 - (3 + (length k - 6))) with 0 by lia.
    rewrite skipn_all2 by (rewrite length_app, repeat_length, Ha; lia).
    rewrite skipn_skipn. simpl. reflexivity.
  - intros i Hi. rewrite nth_error_app2 by lia. rewrite Ha.
    rewrite nth_error_app1 by (rewrite repeat_length; lia).
    apply nth_error_repeat. lia.
Qed.

Lemma mask_keeps_ends_witness :
  6 < length (lit "0123456789abcdef")
  /\ length (_mask (lit "0123456789abcdef")) = 16
  /\ firstn 3 (_mask (lit "0123456789abcdef")) = lit "012".
Proof.
  split; [simpl; lia|].
  destruct (mask_keeps_ends (lit "0123456789abcdef")) as (H1 & H2 & _).
  - simpl; lia.
  - split; [exact H1 | exact H2].
Defined.

(** ** Validation *)

Lemma key_rejected_iff (api : str) :
  key_rejected api = true <->
  api = [] \/ In (py_lower api) placeholders \/ length api < 20.
Proof.
  unfold key_rejected. rewrite !orb_true_iff, Nat.ltb_lt, existsb_exists.
  split.
  - intros [[H | (p & Hin & Hp)] | H]; auto.
    + destruct api; [auto | discriminate].
    + apply str_eqb_eq in Hp. subst p. auto.
  - intros [H | [H | H]]; auto.
    + subst api. auto.
    + left; right. exists (py_lower api). split; [exact H | apply str_eqb_refl].
Qed.

Example validate_upper_placeholder :
  validate (Some (lit " 'YOUR_API_KEY_HERE' ")) = false.
Proof. reflexivity. Qed.

Example validate_good_key :
  validate (Some (lit "0123456789abcdef0123456789abcdef01234567")) = true.
Proof. reflexivity. Qed.

(** C8: [validate] is false whenever the normalized value is empty, or its
    lower-case form is one of the placeholders, or it has fewer than 20
    characters. *)
Theorem validate_rejects (raw : option str) :
  _clean_key raw = []
  \/ In (py_lower (_clean_key raw)) placeholders
  \/ length (_clean_key raw) < 20 ->
  validate raw = false.
Proof.
  intros H. unfold validate. apply key_rejected_iff in H. now rewrite H.
Qed.

Lemma validate_rejects_witness :
  validate (Some (lit " 0123456789abcdef ")) = false.
Proof.
  apply (validate_rejects (Some (lit " 0123456789abcdef "))).
  right; right. vm_compute. lia.
Defined.

(** ** The world *)

Lemma requests_sent_request (r : request) (w : world) :
  requests_sent (log_event (EvRequest r) w) = S (requests_sent w).
Proof.
  unfold requests_sent, log_event. simpl.
  rewrite filter_app, length_app. simpl. lia.
Qed.

Lemma requests_sent_other (e : event) (w : world) :
  is_request e = false -> requests_sent (log_event e w) = requests_sent w.
Proof.
  intros H. unfold requests_sent, log_event. simpl.
  rewrite filter_app, length_app. simpl. rewrite H. simpl. lia.
Qed.

Lemma quiet_ret {A} (a : A) : quiet (ret a).
Proof. intros w. simpl. auto. Qed.

Lemma quiet_raise {A} (e : exn) : quiet (@raise A e).
Proof. intros w. simpl. auto. Qed.

Lemma quiet_lift {A} (r : result A) : quiet (lift r).
Proof. intros w. simpl. auto. Qed.

Lemma quiet_emit (e : event) : is_request e = false -> quiet (emit e).
Proof.
  intros H w. simpl. split; [reflexivity | now apply requests_sent_other].
Qed.

Lemma quiet_bind {A B} (c : M A) (k : A -> M B) :
  quiet c -> (forall a, quiet (k a)) -> quiet (bind c k).
Proof.
  intros Hc Hk w. unfold bind. destruct (Hc w) as [H1 H2].
  destruct (c w) as [[a | e] w1]; simpl in *; [|auto].
  destruct (Hk a w1) as [K1 K2]. split; congruence.
Qed.

Lemma quiet_when (b : bool) (c : M unit) : quiet c -> quiet (when b c).
Proof. destruct b; simpl; [auto | intros _; apply quiet_ret]. Qed.

Lemma quiet_time_sleep (secs : Z) : quiet (time_sleep secs).
Proof.
  intros w. unfold time_sleep.
  destruct ((secs <? -9223372036)%Z || (9223372036 <? secs)%Z); [simpl; auto|].
  destruct (secs <? 0)%Z; [simpl; auto|].
  destruct ((short_sleep <? secs)%Z && clock_refuses (net w) secs); simpl; auto.
  split; [reflexivity | now apply requests_sent_other].
Qed.

Lemma quiet_rate_limit_sleep (r : response) : quiet (rate_limit_sleep r).
Proof.
  unfold rate_limit_sleep. destruct (status_code r =? 429)%Z.
  - apply quiet_bind; [apply quiet_lift | intros a; apply quiet_time_sleep].
  - apply quiet_ret.
Qed.

Lemma quiet_raise_for_status (r : response) : quiet (raise_for_status r).
Proof.
  unfold raise_for_status.
  destruct ((400 <=? status_code r)%Z && (status_code r <? 600)%Z);
    [apply quiet_raise | apply quiet_ret].
Qed.

Lemma quiet_json (r : response) : quiet (json r).
Proof.
  unfold json. destruct (json_body r); [apply quiet_ret | apply quiet_raise].
Qed.

Create HintDb quiet.
#[local] Hint Resolve quiet_ret quiet_raise quiet_lift quiet_when quiet_time_sleep
  quiet_rate_limit_sleep quiet_raise_for_status quiet_json : quiet.

Lemma alike_refl {A} (r : result A) : alike r r.
Proof. now left. Qed.

Lemma alike_final {A} (r1 r2 : result A) :
  alike r1 r2 -> is_final r2 = true -> r1 = r2.
Proof.
  intros [H | (e1 & e2 & -> & -> & H1 & H2)] Hf; [exact H|].
  simpl in Hf. rewrite H2 in Hf. discriminate.
Qed.

Lemma alike_retried {A} (r : result A) (e : exn) :
  alike r (Raise e) -> is_Exception e = true ->
  exists e', r = Raise e' /\ is_Exception e' = true.
Proof.
  intros [H | (e1 & e2 & -> & _ & H1 & _)] He; eauto.
Qed.

Lemma constantly_call (o : outcome) (n : nat) (req : request) :
  constantly o n req = o.
Proof. destruct o; reflexivity. Qed.

Lemma accepted_iff (env : environment) (req : request) :
  accepted env req = true <-> refuses env req = None.
Proof. unfold accepted. destruct (refuses env req); split; congruence. Qed.

Lemma call_of_accepted (env : environment) (n : nat) (req : request) (e : exn) :
  accepted env req = true -> env n req <> Unsent e.
Proof.
  unfold accepted, call. destruct (refuses env req); [discriminate|].
  intros _. destruct (answer env n req); discriminate.
Qed.

Lemma call_of_refused (env : environment) (n : nat) (req : request) :
  accepted env req = false -> exists e, env n req = Unsent e.
Proof.
  unfold accepted, call. destruct (refuses env req) as [e|]; [eauto | discriminate].
Qed.

Lemma call_sent (env : environment) (n : nat) (req : request) :
  (forall e, env n req <> Unsent e) -> accepted env req = true.
Proof.
  intros H. destruct (accepted env req) eqn:E; [reflexivity|].
  destruct (call_of_refused env n req E) as (e & He). now elim (H e).
Qed.

(** ** The retry loop *)

Lemma attempt_world_shift {A} (p : retry_policy) (fn : M A) (n : nat)
    (w : world) (i : nat) :
  attempt_world p fn n w (S i)
  = attempt_world p fn (S n) (log_event (EvBackoff (wait p n)) (snd (fn w))) i.
Proof.
  induction i as [|i IH].
  - simpl. now rewrite Nat.add_0_r.
  - change (attempt_world p fn n w (S (S i)))
      with (log_event (EvBackoff (wait p (n + S i)))
              (snd (fn (attempt_world p fn n w (S i))))).
    rewrite IH. simpl. now rewrite Nat.add_succ_r.
Qed.

(** When every attempt allowed fails with an [Exception], in the world the
    loop reaches it in, the loop ends after the last of them with its
    error. *)
Lemma retry_from_exhausted {A} (p : retry_policy) (fn : M A) (left : nat) :
  forall (n : nat) (w : world),
    (forall i, i <= left -> exists e,
        fst (fn (attempt_world p fn n w i)) = Raise e
        /\ is_Exception e = true) ->
    exists e,
      fst (fn (attempt_world p fn n w left)) = Raise e
      /\ retry_from p left n fn w
         = (Raise (if reraise p then e else RetryError e),
            snd (fn (attempt_world p fn n w left))).
Proof.
  induction left as [|l IH]; intros n w H.
  - destruct (H 0 (Nat.le_refl 0)) as (e & He & Hexc). simpl in *.
    exists e. split; [exact He|].
    destruct (fn w) as [r w1]. simpl in *. subst r. now rewrite Hexc.
  - destruct (H 0 (Nat.le_0_l _)) as (e & He & Hexc). simpl in He.
    destruct (IH (S n) (log_event (EvBackoff (wait p n)) (snd (fn w))))
      as (e' & E1 & E2).
    + intros i Hi. rewrite <- attempt_world_shift. apply H. lia.
    + exists e'. rewrite attempt_world_shift. split; [exact E1|].
      cbn [retry_from]. destruct (fn w) as [r w1]. simpl in *. subst r.
      rewrite Hexc. exact E2.
Qed.

(** ** The retry loop over one request *)

Section RetryLoop.
Variable A : Type.
Variable req : request.
Variable k : response -> M A.
Hypothesis k_quiet : forall r, quiet (k r).
Hypothesis k_alike : forall r w1 w2, alike (fst (k r w1)) (fst (k r w2)).

Let fn : M A := bind (send req) k.

Lemma attempt_refused (w : world) :
  accepted (net w) req = false -> snd (fn w) = w.
Proof.
  intros H. destruct (call_of_refused (net w) (requests_sent w) req H) as (e & He).
  unfold fn, bind, send. now rewrite He.
Qed.

Lemma attempt_net (w : world) : net (snd (fn w)) = net w.
Proof.
  unfold fn, bind, send.
  destruct (net w (requests_sent w) req) as [r | e | e]; simpl; try reflexivity.
  destruct (k_quiet r (log_event (EvRequest req) w)) as [H _]. exact H.
Qed.

Lemma attempt_sent (w : world) :
  accepted (net w) req = true ->
  requests_sent (snd (fn w)) = S (requests_sent w).
Proof.
  intros H. pose proof (call_of_accepted (net w) (requests_sent w) req) as Hc.
  unfold fn, bind, send.
  destruct (net w (requests_sent w) req) as [r | e | e]; simpl.
  - destruct (k_quiet r (log_event (EvRequest req) w)) as [_ Hs].
    rewrite Hs. apply requests_sent_request.
  - apply requests_sent_request.
  - now elim (Hc e H).
Qed.

Lemma attempt_alike (w : world) :
  alike (fst (fn w)) (attempt_result fn (net w (requests_sent w) req)).
Proof.
  unfold attempt_result, fn, bind, send. cbn [net start].
  rewrite constantly_call.
  destruct (net w (requests_sent w) req) as [r | e | e]; simpl;
    try apply alike_refl.
  apply k_alike.
Qed.

Lemma attempt_world_net (p : retry_policy) (n : nat) (w : world) (i : nat) :
  net (attempt_world p fn n w i) = net w.
Proof.
  induction i as [|i IH]; [reflexivity|]. simpl. now rewrite attempt_net.
Qed.

Lemma attempt_world_sent (p : retry_policy) (n : nat) (w : world) (i : nat) :
  requests_sent (attempt_world p fn n w i)
  = if accepted (net w) req then requests_sent w + i else requests_sent w.
Proof.
  induction i as [|i IH].
  - simpl. destruct (accepted (net w) req); lia.
  - simpl. rewrite requests_sent_other by reflexivity.
    destruct (accepted (net w) req) eqn:E.
    + rewrite attempt_sent by (now rewrite attempt_world_net). rewrite IH. lia.
    + rewrite attempt_refused by (now rewrite attempt_world_net). exact IH.
Qed.

(** When the call is accepted, the first [j] attempts fail with an
    [Exception] and attempt [j + 1], still allowed, gives a final result,
    that result is the result of the loop. *)
Lemma retry_from_settles (p : retry_policy) (j : nat) :
  forall (left n : nat) (w : world) (r : result A),
    j <= left ->
    accepted (net w) req = true ->
    (forall i, i < j -> exists e,
        attempt_result fn (net w (requests_sent w + i) req) = Raise e
        /\ is_Exception e = true) ->
    attempt_result fn (net w (requests_sent w + j) req) = r ->
    is_final r = true ->
    exists w',
      retry_from p left n fn w = (r, w')
      /\ requests_sent w' = requests_sent w + S j
      /\ net w' = net w.
Proof.
  induction j as [|j IH]; intros left n w r Hj Hacc Hfail Hr Hfin.
  - rewrite Nat.add_0_r in Hr.
    pose proof (attempt_alike w) as Ha. rewrite Hr in Ha.
    pose proof (alike_final Ha Hfin) as Heq.
    pose proof (attempt_sent w Hacc) as Hs.
    pose proof (attempt_net w) as Hn.
    assert (E : retry_from p left n fn w = (r, snd (fn w))).
    { destruct left; simpl; destruct (fn w) as [r0 w1]; simpl in Heq; subst r0;
        (destruct r as [a | e];
         [reflexivity
         | simpl in Hfin; apply negb_true_iff in Hfin; rewrite Hfin; reflexivity]). }
    exists (snd (fn w)). repeat split; auto. lia.
  - destruct left as [|l]; [lia|].
    destruct (Hfail 0 (Nat.lt_0_succ _)) as (e & He & Hexc).
    rewrite Nat.add_0_r in He.
    pose proof (attempt_alike w) as Ha. rewrite He in Ha.
    destruct (alike_retried Ha Hexc) as (e' & He' & Hexc').
    pose proof (attempt_sent w Hacc) as Hs.
    pose proof (attempt_net w) as Hn.
    cbn [retry_from].
    destruct (fn w) as [r0 w1]. simpl in *. subst r0. rewrite Hexc'.
    set (w2 := log_event (EvBackoff (wait p n)) w1).
    assert (Hs2 : requests_sent w2 = S (requests_sent w))
      by (unfold w2; rewrite requests_sent_other; auto).
    assert (Hn2 : net w2 = net w) by (unfold w2; simpl; auto).
    destruct (IH l (S n) w2 r) as (w' & E1 & E2 & E3); auto.
    + lia.
    + now rewrite Hn2.
    + intros i Hi. rewrite Hs2, Hn2.
      replace (S (requests_sent w) + i) with (requests_sent w + S i) by lia.
      apply Hfail. lia.
    + rewrite Hs2, Hn2.
      replace (S (requests_sent w) + j) with (requests_sent w + S j) by lia.
      exact Hr.
    + exists w'. repeat split; auto; [lia | congruence].
Qed.
End RetryLoop.

(** ** The request executor *)

Lemma get_checks_quiet (r : response) : quiet (_get_checks r).
Proof.
  unfold _get_checks.
  repeat (apply quiet_bind; [|intros ?]); auto with quiet.
  apply quiet_when, quiet_bind; [|intros ?]; auto with quiet.
Qed.

Lemma put_checks_quiet (r : response) : quiet (_put_checks r).
Proof.
  unfold _put_checks.
  repeat (apply quiet_bind; [|intros ?]); auto with quiet.
  apply quiet_when, quiet_bind; [|intros ?]; auto with quiet.
Qed.

Lemma retry_first_ok {A} (p : retry_policy) (fn : M A) (w w' : world) (a : A) :
  fn w = (Ok a, w') -> retry p fn w = (Ok a, w').
Proof.
  intros H. unfold retry. destruct (stop_after_attempt p - 1); simpl; now rewrite H.
Qed.

Lemma retry_not_Exception {A} (p : retry_policy) (fn : M A) (w w' : world) (e : exn) :
  fn w = (Raise e, w') -> is_Exception e = false -> retry p fn w = (Raise e, w').
Proof.
  intros H He. unfold retry.
  destruct (stop_after_attempt p - 1); simpl; now rewrite H, He.
Qed.

(** A 2xx answer with a JSON body is returned at the first attempt. *)
Lemma get_ok (s : session) (u : str) (kw : list (str * pyval))
    (w : world) (r : response) (v : pyval) :
  net w (requests_sent w) (get_request s u kw) = Resp r ->
  (200 <= status_code r < 300)%Z ->
  json_body r = Some v ->
  _get s u kw w = (Ok v, log_event (EvRequest (get_request s u kw)) w).
Proof.
  intros Hnet Hst Hjs. apply retry_first_ok.
  unfold _get_attempt, bind, send. rewrite Hnet.
  unfold _get_checks, raise_for_status, json, when, bind.
  replace (status_code r =? 401)%Z with false by lia.
  replace (status_code r =? 429)%Z with false by lia.
  replace ((400 <=? status_code r)%Z && (status_code r <? 600)%Z) with false by lia.
  simpl. now rewrite Hjs.
Qed.

(** C1 fails on [_put]: against a transport that answers 401, [_put] does
    not stop at the first attempt as [_get] does. It sends the request five
    times, and the caller gets a [RetryError] around an [HTTPError], not an
    authentication failure. *)
Theorem put_401_is_retried :
  let w := start (always unauthorized) in
  fst (_put a_session a_url (PyDict []) w) = Raise (RetryError (HTTPError unauthorized))
  /\ requests_sent (snd (_put a_session a_url (PyDict []) w)) = 5
  /\ requests_sent (snd (_get a_session a_url [] w)) = 1.
Proof. vm_compute. auto. Qed.

(** C2: when the first answer to [_get] is a 401, [_get] raises the
    [SystemExit] of the source at once: the only thing done is that one
    request (no retry, no wait), and the message is the guidance text
    followed by the first 400 characters, at most, of the response body. *)
Theorem get_401_exits (s : session) (u : str) (kw : list (str * pyval))
    (w : world) (r : response) :
  net w (requests_sent w) (get_request s u kw) = Resp r ->
  status_code r = 401%Z ->
  _get s u kw w
  = (Raise (SystemExit (unauthorized_guidance ++ firstn 400 (text r))),
     log_event (EvRequest (get_request s u kw)) w)
  /\ length (firstn 400 (text r)) <= 400
  /\ exists rest, text r = firstn 400 (text r) ++ rest.
Proof.
  intros Hnet Hst. split; [|split].
  - apply retry_not_Exception; [|reflexivity].
    unfold _get_attempt, bind, send. rewrite Hnet.
    unfold _get_checks. rewrite Hst. reflexivity.
  - apply firstn_le_length.
  - exists (skipn 400 (text r)). symmetry. apply firstn_skipn.
Qed.

Lemma get_401_exits_witness :
  _get a_session orgs_url [] (start (always unauthorized))
  = (Raise (SystemExit (unauthorized_guidance ++ text unauthorized)),
     log_event (EvRequest (get_request a_session orgs_url []))
       (start (always unauthorized))).
Proof.
  exact (proj1 (get_401_exits a_session orgs_url [] (start (always unauthorized))
                  (r := unauthorized) eq_refl eq_refl)).
Defined.

Example get_500_five_attempts :
  log (snd (_get a_session a_url [] (start (always server_error))))
  = let rq := EvRequest (get_request a_session a_url []) in
    [rq; EvBackoff 1; rq; EvBackoff 2; rq; EvBackoff 4; rq; EvBackoff 8; rq].
Proof. reflexivity. Qed.

(** C3, as the claim states it, fails: after five answers 500 the caller
    does not get the last [HTTPError] itself but a [RetryError]. *)
Lemma get_exhausted_is_RetryError :
  fst (_get a_session a_url [] (start (always server_error)))
  = Raise (RetryError (HTTPError server_error))
  /\ fst (_get a_session a_url [] (start (always server_error)))
     <> Raise (HTTPError server_error).
Proof. split; [reflexivity | discriminate]. Qed.

(** C3, amended: when all five attempts of [_get] or [_put] fail with an
    exception that is retried, the call fails after those five attempts,
    and the caller gets a [RetryError] holding the error of the fifth
    attempt, unchanged. Five requests were sent then, or none when the call
    fails before anything is sent. *)
Theorem exhausted_raises_RetryError (s : session) (u : str)
    (kw : list (str * pyval)) (payload : pyval) (w : world) :
  ((forall i, i < 5 -> exists e,
       nth_attempt (_get_attempt s u kw) w i = Raise e
       /\ is_Exception e = true) ->
   exists e w',
     nth_attempt (_get_attempt s u kw) w 4 = Raise e
     /\ _get s u kw w = (Raise (RetryError e), w')
     /\ requests_sent w'
        = if accepted (net w) (get_request s u kw)
          then requests_sent w + 5 else requests_sent w)
  /\
  ((forall i, i < 5 -> exists e,
       nth_attempt (_put_attempt s u payload) w i = Raise e
       /\ is_Exception e = true) ->
   exists e w',
     nth_attempt (_put_attempt s u payload) w 4 = Raise e
     /\ _put s u payload w = (Raise (RetryError e), w')
     /\ requests_sent w'
        = if accepted (net w) (put_request s u payload)
          then requests_sent w + 5 else requests_sent w).
Proof.
  unfold nth_attempt. split; intros H.
  - destruct (retry_from_exhausted policy (_get_attempt s u kw) (left := 4) 1 w)
      as (e & H1 & H2).
    + intros i Hi. apply H. lia.
    + exists e, (snd (_get_attempt s u kw
                        (attempt_world policy (_get_attempt s u kw) 1 w 4))).
      repeat split; auto.
      set (w4 := attempt_world policy (_get_attempt s u kw) 1 w 4).
      pose proof (attempt_world_sent (get_request s u kw) _get_checks
                    get_checks_quiet policy 1 w 4) as Hs.
      pose proof (attempt_world_net (get_request s u kw) _get_checks
                    get_checks_quiet policy 1 w 4) as Hn.
      change (requests_sent w4
              = if accepted (net w) (get_request s u kw)
                then requests_sent w + 4 else requests_sent w) in Hs.
      change (net w4 = net w) in Hn.
      destruct (accepted (net w) (get_request s u kw)) eqn:E.
      * assert (Hq : accepted (net w4) (get_request s u kw) = true)
          by (now rewrite Hn).
        apply (attempt_sent (get_request s u kw) _get_checks get_checks_quiet w4) in Hq.
        change (requests_sent (snd (_get_attempt s u kw w4)) = S (requests_sent w4)) in Hq.
        rewrite Hq, Hs. lia.
      * assert (Hq : accepted (net w4) (get_request s u kw) = false)
          by (now rewrite Hn).
        apply (attempt_refused (get_request s u kw) _get_checks w4) in Hq.
        change (snd (_get_attempt s u kw w4) = w4) in Hq.
        rewrite Hq. exact Hs.
  - destruct (retry_from_exhausted policy (_put_attempt s u payload) (left := 4) 1 w)
      as (e & H1 & H2).
    + intros i Hi. apply H. lia.
    + exists e, (snd (_put_attempt s u payload
                        (attempt_world policy (_put_attempt s u payload) 1 w 4))).
      repeat split; auto.
      set (w4 := attempt_world policy (_put_attempt s u payload) 1 w 4).
      pose proof (attempt_world_sent (put_request s u payload) _put_checks
                    put_checks_quiet policy 1 w 4) as Hs.
      pose proof (attempt_world_net (put_request s u payload) _put_checks
                    put_checks_quiet policy 1 w 4) as Hn.
      change (requests_sent w4
              = if accepted (net w) (put_request s u payload)
                then requests_sent w + 4 else requests_sent w) in Hs.
      change (net w4 = net w) in Hn.
      destruct (accepted (net w) (put_request s u payload)) eqn:E.
      * assert (Hq : accepted (net w4) (put_request s u payload) = true)
          by (now rewrite Hn).
        apply (attempt_sent (put_request s u payload) _put_checks put_checks_quiet w4) in Hq.
        change (requests_sent (snd (_put_attempt s u payload w4)) = S (requests_sent w4)) in Hq.
        rewrite Hq, Hs. lia.
      * assert (Hq : accepted (net w4) (put_request s u payload) = false)
          by (now rewrite Hn).
        apply (attempt_refused (put_request s u payload) _put_checks w4) in Hq.
        change (snd (_put_attempt s u payload w4) = w4) in Hq.
        rewrite Hq. exact Hs.
Qed.

Lemma exhausted_raises_RetryError_witness :
  exists e w',
    nth_attempt (_put_attempt a_session a_url (PyDict []))
      (start (always server_error)) 4 = Raise e
    /\ _put a_session a_url (PyDict []) (start (always server_error))
       = (Raise (RetryError e), w')
    /\ requests_sent w' = 5.
Proof.
  apply (proj2 (exhausted_raises_RetryError a_session a_url [] (PyDict [])
                  (start (always server_error)))).
  intros i Hi. exists (HTTPError server_error).
  do 5 (destruct i as [|i]; [split; reflexivity|]). lia.
Defined.

(** ** Rate limiting *)

Lemma time_sleep_blocks (n : Z) (w : world) :
  (0 <= n <= 9223372036)%Z ->
  clock_takes w n ->
  time_sleep n w = (Ok tt, log_event (EvSleep n) w).
Proof.
  intros Hn Hc. unfold time_sleep.
  replace ((n <? -9223372036)%Z || (9223372036 <? n)%Z) with false by lia.
  replace (n <? 0)%Z with false by lia.
  destruct Hc as [Hc | Hc].
  - replace (short_sleep <? n)%Z with false by lia. reflexivity.
  - rewrite Hc, andb_false_r. reflexivity.
Qed.

Lemma rate_limit_sleep_blocks (r : response) (n : Z) (w : world) :
  status_code r = 429%Z ->
  py_int (headers_get (headers r) (lit "Retry-After") (lit "1")) = Ok n ->
  (0 <= n <= 9223372036)%Z ->
  clock_takes w n ->
  rate_limit_sleep r w = (Ok tt, log_event (EvSleep n) w).
Proof.
  intros Hst Hint Hn Hc. unfold rate_limit_sleep, bind, lift.
  rewrite Hst, Hint. cbn [Z.eqb Pos.eqb]. now apply time_sleep_blocks.
Qed.

Example retry_after_absent :
  rate_limit_sleep (rate_limited []) (start (always server_error))
  = (Ok tt, log_event (EvSleep 1) (start (always server_error))).
Proof. reflexivity. Qed.

(** The case of the design: 429 with [Retry-After: 2], then 200. *)
Example get_429_then_200 :
  let w := start (scripted [rate_limited [(lit "Retry-After", lit "2")]]
                    (ok_response (PyList two_orgs))) in
  let rq := EvRequest (get_request a_session orgs_url []) in
  fst (_get a_session orgs_url [] w) = Ok (PyList two_orgs)
  /\ log (snd (_get a_session orgs_url [] w)) = [rq; EvSleep 2; EvBackoff 1; rq].
Proof. split; reflexivity. Qed.

Example get_429_no_header :
  let w := start (always (rate_limited [])) in
  let rq := EvRequest (get_request a_session orgs_url []) in
  fst (_get a_session orgs_url [] w)
  = Raise (RetryError (PyException (lit "429 rate limited")))
  /\ log (snd (_get a_session orgs_url [] w))
     = [rq; EvSleep 1; EvBackoff 1; rq; EvSleep 1; EvBackoff 2;
        rq; EvSleep 1; EvBackoff 4; rq; EvSleep 1; EvBackoff 8; rq; EvSleep 1].
Proof. split; reflexivity. Qed.

(** C4 fails on a [Retry-After] that is not a number, here a date: [int]
    raises [ValueError] inside [rate_limit_sleep], which never sleeps (no
    1-second default), and after five such answers the caller gets a
    [RetryError] around that [ValueError] where a missing header gives one
    around the 429 exception. *)
Theorem get_429_bad_retry_after :
  let r := rate_limited [(lit "Retry-After", http_date)] in
  let w := start (always r) in
  let rq := EvRequest (get_request a_session orgs_url []) in
  fst (rate_limit_sleep r w) = Raise (ValueError http_date)
  /\ fst (_get a_session orgs_url [] w) = Raise (RetryError (ValueError http_date))
  /\ log (snd (_get a_session orgs_url [] w))
     = [rq; EvBackoff 1; rq; EvBackoff 2; rq; EvBackoff 4; rq; EvBackoff 8; rq]
  /\ filter is_sleep (log (snd (_get a_session orgs_url [] w))) = [].
Proof. repeat split; reflexivity. Qed.

(** ** Resource resolver *)

Lemma has_name_get (d : list (str * pyval)) (name : str) :
  exists v, py_get (PyDict d) (lit "name") = Ok v
            /\ py_eq_str v name = has_name (PyDict d) name.
Proof.
  unfold py_get, has_name. destruct (dict_get d (lit "name")) as [v|].
  - exists v. auto.
  - exists PyNone. auto.
Qed.


Example find_org_B :
  fst (find_org_id_by_name a_session (lit "B")
         (start (always (ok_response (PyList two_orgs)))))
  = Ok (PyStr (lit "2")).
Proof. reflexivity. Qed.

Example find_org_Z :
  fst (find_org_id_by_name a_session (lit "Z")
         (start (always (ok_response (PyList two_orgs)))))
  = Ok PyNone.
Proof. reflexivity. Qed.

Example find_org_case_sensitive :
  fst (find_org_id_by_name a_session (lit "b")
         (start (always (ok_response (PyList two_orgs)))))
  = Ok PyNone.
Proof. reflexivity. Qed.

Example find_network_url :
  log (snd (find_network_id a_session (lit "549236") (lit "API Network")
              (start (always (ok_response (PyList []))))))
  = [EvRequest (get_request a_session
       (lit "https://api.meraki.com/api/v1/organizations/549236/networks") [])].
Proof. reflexivity. Qed.



Lemma scan_skips_unnamed (pre post : list pyval) (d : list (str * pyval))
    (name : str) :
  dict_get d (lit "name") = None ->
  scan_for_name (pre ++ PyDict d :: post) name = scan_for_name (pre ++ post) name.
Proof.
  intros Hd. induction pre as [|o pre IH]; cbn [app scan_for_name].
  - unfold py_get. rewrite Hd. reflexivity.
  - destruct (py_get o (lit "name")) as [v | e]; [|reflexivity].
    destruct (py_eq_str v name); [reflexivity | exact IH].
Qed.

(** C10: an entry without a ["name"] never makes the resolvers fail and
    never matches: whatever comes before and after it in the list, both
    resolvers give what they give for the list without that entry. *)
Theorem unnamed_entry_skipped (s : session) (org_id name : str)
    (w w' : world) (pre post : list pyval) (d : list (str * pyval)) :
  dict_get d (lit "name") = None ->
  (_get s orgs_url [] w = (Ok (PyList (pre ++ PyDict d :: post)), w') ->
   find_org_id_by_name s name w = (scan_for_name (pre ++ post) name, w'))
  /\
  (_get s (nets_url org_id) [] w = (Ok (PyList (pre ++ PyDict d :: post)), w') ->
   find_network_id s org_id name w = (scan_for_name (pre ++ post) name, w')).
Proof.
  intros Hd. split; intros Hget.
  - unfold find_org_id_by_name, bind. rewrite Hget.
    unfold for_name, bind, lift. simpl. now rewrite scan_skips_unnamed.
  - unfold find_network_id, bind. rewrite Hget.
    unfold for_name, bind, lift. simpl. now rewrite scan_skips_unnamed.
Qed.

Lemma unnamed_entry_skipped_witness :
  find_org_id_by_name a_session (lit "B")
    (start (always (ok_response (PyList orgs_with_unnamed))))
  = (Ok (PyStr (lit "2")),
     log_event (EvRequest (get_request a_session orgs_url []))
       (start (always (ok_response (PyList orgs_with_unnamed))))).
Proof.
  apply (proj1 (@unnamed_entry_skipped a_session [] (lit "B")
                  (start (always (ok_response (PyList orgs_with_unnamed)))) _
                  [entity "1" "A"] [entity "2" "B"] unnamed_entry eq_refl)).
  reflexivity.
Defined.

(** ** Sanity check *)

Example sanity_two_orgs :
  log (snd (sanity_list_orgs a_session
              (start (always (ok_response (PyList two_orgs))))))
  = [EvRequest (get_request a_session orgs_url []);
     EvPrint (check_mark ++ lit " Sanity: fetched 2 orgs");
     EvPrintVal (PyList [PyStr (lit "A"); PyStr (lit "B")])].
Proof. reflexivity. Qed.

(** C9, as the claim states it, fails: with two organizations returned,
    [sanity_list_orgs] gives its caller [None], not the count 2. *)
Lemma sanity_returns_None :
  fst (sanity_list_orgs a_session
         (start (always (ok_response (PyList two_orgs)))))
  = Ok PyNone
  /\ fst (sanity_list_orgs a_session
            (start (always (ok_response (PyList two_orgs)))))
     <> Ok (PyInt 2).
Proof. split; [reflexivity | discriminate]. Qed.

(** C9, amended: [sanity_list_orgs] calls [_get] once, on the organization
    list. An error of that call reaches the caller as it is, with nothing
    done after it. When the call gives a list of dicts, the function prints
    the line with the number of items, then the first five names, does
    nothing else, and returns [None]. *)
Theorem sanity_prints_count (s : session) (w w' : world) :
  (forall e, _get s orgs_url [] w = (Raise e, w') ->
             sanity_list_orgs s w = (Raise e, w'))
  /\
  (forall items names,
      _get s orgs_url [] w = (Ok (PyList items), w') ->
      names_of items = Ok names ->
      sanity_list_orgs s w
      = (Ok PyNone,
         log_event (EvPrintVal (PyList (firstn 5 names)))
           (log_event (EvPrint (sanity_line (length items))) w'))).
Proof.
  split.
  - intros e Hget. unfold sanity_list_orgs, bind. now rewrite Hget.
  - intros items names Hget Hnames.
    unfold sanity_list_orgs, bind. rewrite Hget.
    unfold lift, print, print_val, emit, ret. simpl. now rewrite Hnames.
Qed.

Lemma sanity_prints_count_witness :
  sanity_list_orgs a_session (start (always (ok_response (PyList two_orgs))))
  = (Ok PyNone,
     log_event (EvPrintVal (PyList [PyStr (lit "A"); PyStr (lit "B")]))
       (log_event (EvPrint (sanity_line 2))
          (log_event (EvRequest (get_request a_session orgs_url []))
             (start (always (ok_response (PyList two_orgs))))))).
Proof.
  apply (proj2 (sanity_prints_count a_session
                  (start (always (ok_response (PyList two_orgs)))) _)
           two_orgs [PyStr (lit "A"); PyStr (lit "B")]);
    reflexivity.
Defined.

(** * Further properties *)

(** ** Credential normalizer, again *)

Lemma lstrip_id (p : ascii -> bool) (s : str) :
  starts_with p s = false -> lstrip p s = s.
Proof.
  destruct s as [|c t]; simpl; [reflexivity|]. intros H. now rewrite H.
Qed.

Lemma rstrip_id (p : ascii -> bool) (s : str) :
  ends_with p s = false -> rstrip p s = s.
Proof.
  induction s as [|c t IH]; [reflexivity|].
  destruct t as [|d t'].
  - simpl. intros H. now rewrite H.
  - intros H. change (ends_with p (d :: t') = false) in H.
    cbn [rstrip] in *. rewrite (IH H). reflexivity.
Qed.

Lemma strip_id (p : ascii -> bool) (s : str) :
  trimmed p s -> strip p s = s.
Proof.
  intros [H1 H2]. unfold strip. rewrite (lstrip_id p s H1). now apply rstrip_id.
Qed.

Lemma strip_length (p : ascii -> bool) (s : str) :
  length (strip p s) <= length s.
Proof.
  destruct (strip_split p s) as (pre & post & H & _).
  rewrite H at 2. rewrite !length_app. lia.
Qed.

Lemma strip_same_length (p : ascii -> bool) (s : str) :
  length (strip p s) = length s -> strip p s = s.
Proof.
  destruct (strip_split p s) as (pre & post & H & _). intros Hlen.
  rewrite H in Hlen at 2. rewrite !length_app in Hlen.
  destruct pre; [|simpl in Hlen; lia]. destruct post; [|simpl in Hlen; lia].
  rewrite H at 2. simpl. now rewrite app_nil_r.
Qed.

Lemma strip_trimmed (p : ascii -> bool) (s : str) : trimmed p (strip p s).
Proof. destruct (strip_split p s) as (pre & post & _ & _ & _ & H). exact H. Qed.

Lemma clean_key_fixed_iff (s : str) :
  _clean_key (Some s) = s
  <-> trimmed is_space s /\ trimmed is_dquote s /\ trimmed is_squote s.
Proof.
  unfold _clean_key, or_empty. split.
  - intros H.
    pose proof (strip_length is_space s) as L1.
    pose proof (strip_length is_dquote (strip is_space s)) as L2.
    pose proof (strip_length is_squote (strip is_dquote (strip is_space s))) as L3.
    rewrite H in L3.
    assert (E1 : strip is_space s = s) by (apply strip_same_length; lia).
    rewrite E1 in *.
    assert (E2 : strip is_dquote s = s) by (apply strip_same_length; lia).
    rewrite E2 in *.
    repeat split;
      solve [ rewrite <- E1; apply strip_trimmed
            | rewrite <- E2; apply strip_trimmed
            | rewrite <- H; apply strip_trimmed ].
  - intros (H1 & H2 & H3).
    rewrite (@strip_id _ _ H1), (@strip_id _ _ H2). exact (@strip_id _ _ H3).
Qed.

(** X1: [_clean_key] gives a string back unchanged exactly when the string
    neither begins nor ends with whitespace, a double quote or a single
    quote. *)
Theorem clean_key_fixed_point (s : str) :
  _clean_key (Some s) = s
  <-> trimmed is_space s /\ trimmed is_dquote s /\ trimmed is_squote s.
Proof. exact (clean_key_fixed_iff s). Qed.

(** X2: [make_headers] cleans the key once more; for a key that already
    went through [_clean_key], as in [main], the key it sends is the key it
    was given exactly when that key neither begins nor ends with whitespace
    or a double quote. *)
Theorem make_headers_key (v : option str) :
  header_key (make_headers (_clean_key v)) = _clean_key (Some (_clean_key v))
  /\ (header_key (make_headers (_clean_key v)) = _clean_key v
      <-> trimmed is_space (_clean_key v) /\ trimmed is_dquote (_clean_key v)).
Proof.
  assert (E : header_key (make_headers (_clean_key v))
              = _clean_key (Some (_clean_key v))) by reflexivity.
  split; [exact E|]. rewrite E, clean_key_fixed_iff.
  assert (trimmed is_squote (_clean_key v)) by apply strip_trimmed. tauto.
Qed.

(** ** Masking, again *)

(** X3: the output of [_mask] always has the length of its input. *)
Theorem mask_length (k : str) : length (_mask k) = length k.
Proof.
  destruct (Nat.le_gt_cases (length k) 6) as [H | H].
  - rewrite (mask_short k H). apply repeat_length.
  - rewrite (mask_unfold k H), !length_app, repeat_length, length_firstn,
      length_skipn. lia.
Qed.

(** X4: every character [_mask] shows is the mask character, unless the
    input has more than 6 characters and the position is one of its first
    three or last three, where the input's own character shows. *)
Theorem mask_shows_only_ends (k : str) (i : nat) (c : ascii) :
  nth_error (_mask k) i = Some c ->
  c = star
  \/ (6 < length k /\ (i < 3 \/ length k - 3 <= i) /\ nth_error k i = Some c).
Proof.
  destruct (Nat.le_gt_cases (length k) 6) as [H | H].
  - rewrite (mask_short k H). intros Hn. left.
    apply nth_error_In, repeat_spec in Hn. exact Hn.
  - rewrite (mask_unfold k H). intros Hn.
    assert (Ha : length (firstn 3 k) = 3) by (rewrite length_firstn; lia).
    rewrite nth_error_app, Ha in Hn.
    destruct (i <? 3) eqn:Hi.
    + apply Nat.ltb_lt in Hi. rewrite nth_error_firstn in Hn.
      apply Nat.ltb_lt in Hi. rewrite Hi in Hn. apply Nat.ltb_lt in Hi.
      right. auto.
    + apply Nat.ltb_ge in Hi. rewrite nth_error_app, repeat_length in Hn.
      destruct (i - 3 <? length k - 6) eqn:Hm.
      * left. apply nth_error_In, repeat_spec in Hn. exact Hn.
      * apply Nat.ltb_ge in Hm. rewrite nth_error_skipn in Hn.
        replace (length k - 3 + (i - 3 - (length k - 6))) with i in Hn by lia.
        right. repeat split; auto. right. lia.
Qed.

Lemma mask_shows_only_ends_witness :
  "0"%char = star
  \/ (6 < length (lit "0123456789") /\ (0 < 3 \/ length (lit "0123456789") - 3 <= 0)
      /\ nth_error (lit "0123456789") 0 = Some "0"%char).
Proof.
  apply (@mask_shows_only_ends (lit "0123456789") 0 "0"%char). reflexivity.
Defined.

(** ** Validation, again *)

Lemma key_rejected_length (api : str) :
  key_rejected api = (length api <? 20).
Proof.
  destruct (length api <? 20) eqn:Hlen.
  - apply key_rejected_iff. right; right. now apply Nat.ltb_lt.
  - apply Nat.ltb_ge in Hlen.
    destruct (key_rejected api) eqn:Hrej; [|reflexivity].
    apply key_rejected_iff in Hrej.
    destruct Hrej as [H | [H | H]].
    + subst api. simpl in Hlen. lia.
    + assert (Hl : length (py_lower api) = length api)
        by (unfold py_lower; apply length_map).
      destruct H as [H | [H | []]]; rewrite <- H in Hl; simpl in Hl; lia.
    + lia.
Qed.

(** X5: the guard of [main] is a length test: the cleaned key is rejected
    exactly when it has fewer than 20 characters. The tests for the empty
    key and for the placeholders never decide. *)
Theorem key_rejected_is_length_test (api : str) :
  key_rejected api = (length api <? 20).
Proof. exact (key_rejected_length api). Qed.

(** X6: for a key that [main] accepts, the masked form it prints shows
    the first three and last three characters and hides at least 14. *)
Theorem accepted_key_masked (raw : option str) :
  validate raw = true ->
  _mask (_clean_key raw)
  = firstn 3 (_clean_key raw)
    ++ repeat star (length (_clean_key raw) - 6)
    ++ skipn (length (_clean_key raw) - 3) (_clean_key raw)
  /\ 14 <= length (_clean_key raw) - 6.
Proof.
  unfold validate. rewrite key_rejected_length.
  intros H. apply negb_true_iff, Nat.ltb_ge in H.
  split; [apply mask_unfold|]; lia.
Qed.

Lemma accepted_key_masked_witness :
  _mask (_clean_key (Some (lit " '0123456789abcdef0123' ")))
  = lit "012**************123".
Proof.
  exact (proj1 (@accepted_key_masked (Some (lit " '0123456789abcdef0123' ")) eq_refl)).
Defined.

(** ** What the executor adds to the log *)

Lemma world_eta (w : world) : {| net := net w; log := log w ++ [] |} = w.
Proof. destruct w. simpl. now rewrite app_nil_r. Qed.

Lemma only_sleeps_ret {A} (a : A) : only_sleeps (ret a).
Proof. intros w. exists []. simpl. now rewrite world_eta. Qed.

Lemma only_sleeps_raise {A} (e : exn) : only_sleeps (@raise A e).
Proof. intros w. exists []. simpl. now rewrite world_eta. Qed.

Lemma only_sleeps_lift {A} (r : result A) : only_sleeps (lift r).
Proof. intros w. exists []. simpl. now rewrite world_eta. Qed.

Lemma only_sleeps_bind {A B} (c : M A) (k : A -> M B) :
  only_sleeps c -> (forall a, only_sleeps (k a)) -> only_sleeps (bind c k).
Proof.
  intros Hc Hk w. unfold bind. destruct (Hc w) as (e1 & H1 & F1).
  destruct (c w) as [[a | e] w1]; simpl in H1; subst w1.
  - destruct (Hk a {| net := net w; log := log w ++ e1 |}) as (e2 & H2 & F2).
    exists (e1 ++ e2). simpl in H2. rewrite H2, app_assoc, forallb_app, F1, F2.
    auto.
  - exists e1. auto.
Qed.

Lemma only_sleeps_when (b : bool) (c : M unit) :
  only_sleeps c -> only_sleeps (when b c).
Proof. destruct b; simpl; [auto | intros _; apply only_sleeps_ret]. Qed.

Lemma only_sleeps_time_sleep (secs : Z) : only_sleeps (time_sleep secs).
Proof.
  intros w. unfold time_sleep.
  destruct ((secs <? -9223372036)%Z || (9223372036 <? secs)%Z);
    [exists []; simpl; now rewrite world_eta|].
  destruct (secs <? 0)%Z; [exists []; simpl; now rewrite world_eta|].
  destruct ((short_sleep <? secs)%Z && clock_refuses (net w) secs);
    [exists []; simpl; now rewrite world_eta|].
  exists [EvSleep secs]. auto.
Qed.

Lemma only_sleeps_rate_limit_sleep (r : response) : only_sleeps (rate_limit_sleep r).
Proof.
  unfold rate_limit_sleep. destruct (status_code r =? 429)%Z.
  - apply only_sleeps_bind; [apply only_sleeps_lift | intros a; apply only_sleeps_time_sleep].
  - apply only_sleeps_ret.
Qed.

Lemma only_sleeps_raise_for_status (r : response) : only_sleeps (raise_for_status r).
Proof.
  unfold raise_for_status.
  destruct ((400 <=? status_code r)%Z && (status_code r <? 600)%Z);
    [apply only_sleeps_raise | apply only_sleeps_ret].
Qed.

Lemma only_sleeps_json (r : response) : only_sleeps (json r).
Proof.
  unfold json. destruct (json_body r); [apply only_sleeps_ret | apply only_sleeps_raise].
Qed.

Create HintDb sleeps.
#[local] Hint Resolve only_sleeps_ret only_sleeps_raise only_sleeps_lift
  only_sleeps_when only_sleeps_time_sleep only_sleeps_rate_limit_sleep
  only_sleeps_raise_for_status only_sleeps_json : sleeps.

Lemma get_checks_only_sleeps (r : response) : only_sleeps (_get_checks r).
Proof.
  unfold _get_checks.
  repeat (apply only_sleeps_bind; [|intros ?]); auto with sleeps.
  apply only_sleeps_when, only_sleeps_bind; [|intros ?]; auto with sleeps.
Qed.

Lemma put_checks_only_sleeps (r : response) : only_sleeps (_put_checks r).
Proof.
  unfold _put_checks.
  repeat (apply only_sleeps_bind; [|intros ?]); auto with sleeps.
  apply only_sleeps_when, only_sleeps_bind; [|intros ?]; auto with sleeps.
Qed.

Lemma sleeps_filtered (evs : list event) :
  forallb is_sleep evs = true ->
  filter is_request evs = [] /\ filter is_backoff evs = []
  /\ forallb executor_event evs = true.
Proof.
  induction evs as [|e t IH]; simpl; [auto|].
  intros H. apply andb_true_iff in H as [He Ht].
  destruct (IH Ht) as (H1 & H2 & H3).
  destruct e; try discriminate. simpl. auto.
Qed.

Lemma new_events_app (w : world) (evs : list event) (n : environment) :
  new_events w {| net := n; log := log w ++ evs |} = evs.
Proof.
  unfold new_events. simpl. rewrite skipn_app, Nat.sub_diag, skipn_all. reflexivity.
Qed.

Section RetryTrace.
Variable A : Type.
Variable req : request.
Variable k : response -> M A.
Hypothesis k_sleeps : forall r, only_sleeps (k r).

Let fn : M A := bind (send req) k.

Lemma attempt_trace (w : world) :
  exists evs,
    snd (fn w)
    = {| net := net w;
         log := log w ++ if accepted (net w) req then EvRequest req :: evs else [] |}
    /\ forallb is_sleep evs = true.
Proof.
  unfold fn, bind, send.
  pose proof (call_of_accepted (net w) (requests_sent w) req) as Hacc.
  pose proof (call_of_refused (net w) (requests_sent w) req) as Href.
  destruct (accepted (net w) req).
  - destruct (net w (requests_sent w) req) as [r | e | e].
    + destruct (k_sleeps r (log_event (EvRequest req) w)) as (evs & H & F).
      exists evs. rewrite H. unfold log_event. simpl. now rewrite <- app_assoc.
    + exists []. auto.
    + now elim (Hacc e).
  - destruct Href as (e & He); [reflexivity|]. rewrite He.
    exists []. simpl. now rewrite world_eta.
Qed.

(** The loop makes between 1 and [S left] attempts, each one sending [req]
    unless the call is refused, backs off between two attempts with the
    waits of the policy in order, and adds nothing else but rate-limit
    sleeps. *)
Lemma retry_from_trace (p : retry_policy) (left : nat) :
  forall (n : nat) (w : world),
    exists a evs,
      snd (retry_from p left n fn w) = {| net := net w; log := log w ++ evs |}
      /\ 1 <= a <= S left
      /\ filter is_request evs
         = repeat (EvRequest req) (if accepted (net w) req then a else 0)
      /\ filter is_backoff evs
         = map (fun i => EvBackoff (wait p i)) (seq n (a - 1))
      /\ forallb executor_event evs = true.
Proof.
  assert (Hone : forall w e1,
             forallb is_sleep e1 = true ->
             forall l n, exists a evs,
               {| net := net w;
                  log := log w ++ if accepted (net w) req
                                  then EvRequest req :: e1 else [] |}
               = {| net := net w; log := log w ++ evs |}
               /\ 1 <= a <= S l
               /\ filter is_request evs
                  = repeat (EvRequest req) (if accepted (net w) req then a else 0)
               /\ filter is_backoff evs
                  = map (fun i => EvBackoff (wait p i)) (seq n (a - 1))
               /\ forallb executor_event evs = true).
  { intros w e1 F1 l n. destruct (sleeps_filtered e1 F1) as (S1 & S2 & S3).
    exists 1. destruct (accepted (net w) req).
    - exists (EvRequest req :: e1). simpl. rewrite S1, S2, S3.
      repeat split; auto; lia.
    - exists []. simpl. repeat split; auto; lia. }
  induction left as [|l IH]; intros n w; simpl;
    destruct (attempt_trace w) as (e1 & H1 & F1);
    destruct (fn w) as [[a | e] w1]; simpl in H1; subst w1; simpl;
    try (apply Hone; assumption);
    destruct (is_Exception e); try (apply Hone; assumption).
  destruct (sleeps_filtered e1 F1) as (S1 & S2 & S3).
  set (w1 := {| net := net w;
                log := log w ++ if accepted (net w) req
                                then EvRequest req :: e1 else [] |}).
  destruct (IH (S n) (log_event (EvBackoff (wait p n)) w1))
    as (a & evs & E & Ha & R & B & X).
  change (net (log_event (EvBackoff (wait p n)) w1)) with (net w) in *.
  exists (S a),
    ((if accepted (net w) req then EvRequest req :: e1 else [])
       ++ EvBackoff (wait p n) :: evs).
  rewrite E. unfold log_event, w1. cbn [net log].
  rewrite !filter_app, !forallb_app. cbn [filter forallb is_request is_backoff].
  rewrite R, B, X.
  repeat split; try lia.
  - f_equal. rewrite <- !app_assoc. reflexivity.
  - destruct (accepted (net w) req); simpl; [now rewrite S1 | reflexivity].
  - destruct a as [|a']; [lia|]. simpl. rewrite Nat.sub_0_r.
    destruct (accepted (net w) req); simpl; [now rewrite S2 | reflexivity].
  - destruct (accepted (net w) req); simpl; [now rewrite S3 | reflexivity].
Qed.
End RetryTrace.

Lemma executor_trace {A} (req : request) (k : response -> M A) (w : world) :
  (forall r, only_sleeps (k r)) ->
  exists a evs,
    snd (retry policy (bind (send req) k) w)
    = {| net := net w; log := log w ++ evs |}
    /\ 1 <= a <= 5
    /\ filter is_request evs
       = repeat (EvRequest req) (if accepted (net w) req then a else 0)
    /\ filter is_backoff evs = firstn (a - 1) backoff_schedule
    /\ forallb executor_event evs = true.
Proof.
  intros Hk. unfold retry.
  destruct (retry_from_trace req k Hk policy (stop_after_attempt policy - 1) 1 w)
    as (a & evs & E & Ha & R & B & X).
  exists a, evs. simpl in Ha. repeat split; auto; try lia.
  rewrite B.
  destruct a as [|[|[|[|[|[|a]]]]]]; try reflexivity; lia.
Qed.

(** X7: whatever is outside, a call of [_get] or [_put] sends its one
    request (same URL, headers, arguments, timeout 20) at most five times:
    at least once when the call is accepted, never when it fails before
    anything is sent. It leaves what is outside as it is, and adds nothing
    to the log but those requests, rate-limit sleeps and backoff waits. *)
Theorem executor_sends_one_to_five (s : session) (u : str)
    (kw : list (str * pyval)) (payload : pyval) (w : world) :
  (let w' := snd (_get s u kw w) in
   net w' = net w
   /\ log w' = log w ++ new_events w w'
   /\ (exists m, m <= 5
         /\ (accepted (net w) (get_request s u kw) = true -> 1 <= m)
         /\ (accepted (net w) (get_request s u kw) = false -> m = 0)
         /\ filter is_request (new_events w w')
            = repeat (EvRequest (get_request s u kw)) m)
   /\ forallb executor_event (new_events w w') = true)
  /\
  (let w' := snd (_put s u payload w) in
   net w' = net w
   /\ log w' = log w ++ new_events w w'
   /\ (exists m, m <= 5
         /\ (accepted (net w) (put_request s u payload) = true -> 1 <= m)
         /\ (accepted (net w) (put_request s u payload) = false -> m = 0)
         /\ filter is_request (new_events w w')
            = repeat (EvRequest (put_request s u payload)) m)
   /\ forallb executor_event (new_events w w') = true).
Proof.
  split; cbv zeta.
  - destruct (executor_trace (get_request s u kw) _get_checks w get_checks_only_sleeps)
      as (a & evs & E & Ha & R & B & X).
    change (snd (_get s u kw w) = {| net := net w; log := log w ++ evs |}) in E.
    rewrite E, new_events_app. simpl.
    repeat split; auto.
    exists (if accepted (net w) (get_request s u kw) then a else 0).
    destruct (accepted (net w) (get_request s u kw));
      repeat split; auto; try lia; discriminate.
  - destruct (executor_trace (put_request s u payload) _put_checks w put_checks_only_sleeps)
      as (a & evs & E & Ha & R & B & X).
    change (snd (_put s u payload w) = {| net := net w; log := log w ++ evs |}) in E.
    rewrite E, new_events_app. simpl.
    repeat split; auto.
    exists (if accepted (net w) (put_request s u payload) then a else 0).
    destruct (accepted (net w) (put_request s u payload));
      repeat split; auto; try lia; discriminate.
Qed.

(** X8: in every call of [_get] or [_put] the waits of the retry
    decorator are 1, 2, 4 and 8 seconds, in this order, one between each
    two attempts: never more than four waits, 15 seconds in all. The
    requests sent are as many as the attempts, or none when the call fails
    before anything is sent. *)
Theorem executor_backoff_schedule (s : session) (u : str)
    (kw : list (str * pyval)) (payload : pyval) (w : world) :
  (let evs := new_events w (snd (_get s u kw w)) in
   exists a, 1 <= a <= 5
     /\ filter is_backoff evs = firstn (a - 1) backoff_schedule
     /\ length (filter is_request evs)
        = if accepted (net w) (get_request s u kw) then a else 0)
  /\
  (let evs := new_events w (snd (_put s u payload w)) in
   exists a, 1 <= a <= 5
     /\ filter is_backoff evs = firstn (a - 1) backoff_schedule
     /\ length (filter is_request evs)
        = if accepted (net w) (put_request s u payload) then a else 0).
Proof.
  split; cbv zeta.
  - destruct (executor_trace (get_request s u kw) _get_checks w get_checks_only_sleeps)
      as (a & evs & E & Ha & R & B & X).
    change (snd (_get s u kw w) = {| net := net w; log := log w ++ evs |}) in E.
    rewrite E, new_events_app, R, repeat_length.
    exists a. auto.
  - destruct (executor_trace (put_request s u payload) _put_checks w put_checks_only_sleeps)
      as (a & evs & E & Ha & R & B & X).
    change (snd (_put s u payload w) = {| net := net w; log := log w ++ evs |}) in E.
    rewrite E, new_events_app, R, repeat_length.
    exists a. auto.
Qed.

(** Calls that the library turns down are retried like the others, and
    nothing is sent: a second [timeout] among the keywords of [_get], a
    payload with a NaN for [_put]. *)
Example get_second_timeout_unsent :
  let w := start (always (ok_response (PyList []))) in
  _get a_session orgs_url [(lit "timeout", PyInt 5)] w
  = (Raise (RetryError TypeError),
     log_events [EvBackoff 1; EvBackoff 2; EvBackoff 4; EvBackoff 8] w)
  /\ requests_sent (snd (_get a_session orgs_url [(lit "timeout", PyInt 5)] w)) = 0.
Proof. split; reflexivity. Qed.

Example put_nan_unsent :
  let w := start (always (ok_response (PyList []))) in
  _put a_session orgs_url (PyDict [(lit "ratio", PyFloat 9221120237041090560)]) w
  = (Raise (RetryError InvalidJSONError),
     log_events [EvBackoff 1; EvBackoff 2; EvBackoff 4; EvBackoff 8] w).
Proof. reflexivity. Qed.

Example get_params_sent :
  let w := start (always (ok_response (PyList []))) in
  _get a_session orgs_url [(lit "params", PyDict [(lit "perPage", PyInt 5)])] w
  = (Ok (PyList []),
     log_event (EvRequest (get_request a_session orgs_url
                             [(lit "params", PyDict [(lit "perPage", PyInt 5)])])) w).
Proof. reflexivity. Qed.

(** ** Which attempt decides *)

Lemma rate_limit_sleep_alike (r : response) (w1 w2 : world) :
  status_code r = 429%Z ->
  (exists e, fst (rate_limit_sleep r w1) = Raise e /\ is_Exception e = true)
  \/ fst (rate_limit_sleep r w1) = Ok tt.
Proof.
  intros Hst. unfold rate_limit_sleep, bind, lift, time_sleep. rewrite Hst.
  cbn [Z.eqb Pos.eqb].
  destruct (py_int (headers_get (headers r) (lit "Retry-After") (lit "1")))
    as [n | e] eqn:Hint.
  - destruct ((n <? -9223372036)%Z || (9223372036 <? n)%Z);
      [left; simpl; solve [eauto]|].
    destruct (n <? 0)%Z; [left; simpl; solve [eauto]|].
    destruct ((short_sleep <? n)%Z && clock_refuses (net w1) n);
      [left; simpl; solve [eauto] | right; reflexivity].
  - left. exists e. split; [reflexivity|].
    unfold py_int in Hint.
    destruct (match lstrip is_int_space
                      (headers_get (headers r) (lit "Retry-After") (lit "1")) with
              | [] => (false, [])
              | c :: t =>
                  if Ascii.eqb c "-"%char then (true, t)
                  else if Ascii.eqb c "+"%char then (false, t)
                  else (false, c :: t)
              end) as [negative body].
    destruct (scan_digits 0 0 false body) as [[[z count] rest]|];
      [destruct (int_max_str_digits <? count);
       [|destruct (lstrip is_int_space rest)]|];
      inversion Hint; reflexivity.
Qed.

Lemma get_checks_429_fails (r : response) (w : world) :
  status_code r = 429%Z ->
  exists e, fst (_get_checks r w) = Raise e /\ is_Exception e = true.
Proof.
  intros Hst. unfold _get_checks, when, bind. rewrite Hst.
  cbn [Z.eqb Pos.eqb ret].
  destruct (rate_limit_sleep_alike r w w Hst) as [(e & He & Hexc) | Hok].
  - destruct (rate_limit_sleep r w) as [[[]|e0] w1]; simpl in He;
      [discriminate|]. inversion He. subst e0. simpl. eauto.
  - destruct (rate_limit_sleep r w) as [[[]|e0] w1]; simpl in Hok;
      [|discriminate]. simpl. eauto.
Qed.

Lemma put_checks_429_fails (r : response) (w : world) :
  status_code r = 429%Z ->
  exists e, fst (_put_checks r w) = Raise e /\ is_Exception e = true.
Proof.
  intros Hst. unfold _put_checks, when, bind. rewrite Hst.
  cbn [Z.eqb Pos.eqb].
  destruct (rate_limit_sleep_alike r w w Hst) as [(e & He & Hexc) | Hok].
  - destruct (rate_limit_sleep r w) as [[[]|e0] w1]; simpl in He;
      [discriminate|]. inversion He. subst e0. simpl. eauto.
  - destruct (rate_limit_sleep r w) as [[[]|e0] w1]; simpl in Hok;
      [|discriminate]. simpl. eauto.
Qed.

Lemma get_checks_alike (r : response) (w1 w2 : world) :
  alike (fst (_get_checks r w1)) (fst (_get_checks r w2)).
Proof.
  destruct (status_code r =? 429)%Z eqn:H429.
  - apply Z.eqb_eq in H429.
    destruct (get_checks_429_fails r w1 H429) as (e1 & E1 & X1).
    destruct (get_checks_429_fails r w2 H429) as (e2 & E2 & X2).
    right. exists e1, e2. auto.
  - left. unfold _get_checks, when, raise_for_status, json, bind, raise, ret.
    rewrite H429.
    destruct (status_code r =? 401)%Z; [reflexivity|].
    destruct ((400 <=? status_code r)%Z && (status_code r <? 600)%Z);
      [reflexivity|].
    destruct (json_body r); reflexivity.
Qed.

Lemma put_checks_alike (r : response) (w1 w2 : world) :
  alike (fst (_put_checks r w1)) (fst (_put_checks r w2)).
Proof.
  destruct (status_code r =? 429)%Z eqn:H429.
  - apply Z.eqb_eq in H429.
    destruct (put_checks_429_fails r w1 H429) as (e1 & E1 & X1).
    destruct (put_checks_429_fails r w2 H429) as (e2 & E2 & X2).
    right. exists e1, e2. auto.
  - left. unfold _put_checks, when, raise_for_status, json, bind, raise, ret.
    rewrite H429.
    destruct ((400 <=? status_code r)%Z && (status_code r <? 600)%Z);
      [reflexivity|].
    destruct (json_body r); reflexivity.
Qed.

Lemma get_checks_json (r : response) (w : world) (v : pyval) :
  is_error_status (status_code r) = false ->
  json_body r = Some v ->
  _get_checks r w = (Ok v, w).
Proof.
  unfold is_error_status. intros Hst Hjs.
  unfold _get_checks, raise_for_status, json, when, bind.
  replace (status_code r =? 401)%Z with false by lia.
  replace (status_code r =? 429)%Z with false by lia.
  rewrite Hst. simpl. now rewrite Hjs.
Qed.

Lemma put_checks_json (r : response) (w : world) (v : pyval) :
  is_error_status (status_code r) = false ->
  json_body r = Some v ->
  _put_checks r w = (Ok v, w).
Proof.
  unfold is_error_status. intros Hst Hjs.
  unfold _put_checks, raise_for_status, json, when, bind.
  replace (status_code r =? 429)%Z with false by lia.
  rewrite Hst. simpl. now rewrite Hjs.
Qed.

Lemma get_checks_not_json (r : response) (w : world) :
  is_error_status (status_code r) = false ->
  json_body r = None ->
  _get_checks r w = (Raise JSONDecodeError, w).
Proof.
  unfold is_error_status. intros Hst Hjs.
  unfold _get_checks, raise_for_status, json, when, bind.
  replace (status_code r =? 401)%Z with false by lia.
  replace (status_code r =? 429)%Z with false by lia.
  rewrite Hst. simpl. now rewrite Hjs.
Qed.

Lemma put_checks_not_json (r : response) (w : world) :
  is_error_status (status_code r) = false ->
  json_body r = None ->
  _put_checks r w = (Raise JSONDecodeError, w).
Proof.
  unfold is_error_status. intros Hst Hjs.
  unfold _put_checks, raise_for_status, json, when, bind.
  replace (status_code r =? 429)%Z with false by lia.
  rewrite Hst. simpl. now rewrite Hjs.
Qed.

Lemma get_checks_401 (r : response) (w : world) :
  status_code r = 401%Z ->
  _get_checks r w
  = (Raise (SystemExit (unauthorized_guidance ++ firstn 400 (text r))), w).
Proof. intros Hst. unfold _get_checks. now rewrite Hst. Qed.

Lemma get_attempt_on_response (s : session) (u : str) (kw : list (str * pyval))
    (r : response) :
  attempt_result (_get_attempt s u kw) (Resp r)
  = fst (_get_checks r
           (log_event (EvRequest (get_request s u kw)) (start (constantly (Resp r))))).
Proof. reflexivity. Qed.

Lemma put_attempt_on_response (s : session) (u : str) (payload : pyval)
    (r : response) :
  attempt_result (_put_attempt s u payload) (Resp r)
  = fst (_put_checks r
           (log_event (EvRequest (put_request s u payload)) (start (constantly (Resp r))))).
Proof. reflexivity. Qed.

(** X9: a call of [_get] or [_put] returns the value of the first of its
    five attempts that succeeds, when the attempts before it failed with an
    exception that is retried; it has then sent exactly that many
    requests. *)
Theorem first_success_returned (s : session) (u : str)
    (kw : list (str * pyval)) (payload : pyval) (w : world) (j : nat) (v : pyval) :
  j < 5 ->
  ((forall i, i < j -> exists e,
       attempt_result (_get_attempt s u kw)
         (net w (requests_sent w + i) (get_request s u kw)) = Raise e
       /\ is_Exception e = true) ->
   attempt_result (_get_attempt s u kw)
     (net w (requests_sent w + j) (get_request s u kw)) = Ok v ->
   exists w', _get s u kw w = (Ok v, w')
              /\ requests_sent w' = requests_sent w + S j)
  /\
  ((forall i, i < j -> exists e,
       attempt_result (_put_attempt s u payload)
         (net w (requests_sent w + i) (put_request s u payload)) = Raise e
       /\ is_Exception e = true) ->
   attempt_result (_put_attempt s u payload)
     (net w (requests_sent w + j) (put_request s u payload)) = Ok v ->
   exists w', _put s u payload w = (Ok v, w')
              /\ requests_sent w' = requests_sent w + S j).
Proof.
  intros Hj. split; intros Hfail Hok.
  - assert (Hacc : accepted (net w) (get_request s u kw) = true).
    { destruct (accepted (net w) (get_request s u kw)) eqn:E; [reflexivity|].
      destruct (call_of_refused (net w) (requests_sent w + j) _ E) as (e & He).
      rewrite He in Hok. discriminate Hok. }
    destruct (retry_from_settles (get_request s u kw) _get_checks get_checks_quiet
                get_checks_alike policy (j := j) (left := 4) 1 w (r := Ok v))
      as (w' & E & Hs & _); auto; [lia|].
    exists w'. auto.
  - assert (Hacc : accepted (net w) (put_request s u payload) = true).
    { destruct (accepted (net w) (put_request s u payload)) eqn:E; [reflexivity|].
      destruct (call_of_refused (net w) (requests_sent w + j) _ E) as (e & He).
      rewrite He in Hok. discriminate Hok. }
    destruct (retry_from_settles (put_request s u payload) _put_checks put_checks_quiet
                put_checks_alike policy (j := j) (left := 4) 1 w (r := Ok v))
      as (w' & E & Hs & _); auto; [lia|].
    exists w'. auto.
Qed.

Lemma first_success_returned_witness :
  exists w',
    _put a_session a_url (PyDict [])
      (start (scripted [server_error; rate_limited []] (ok_response (PyList []))))
    = (Ok (PyList []), w')
    /\ requests_sent w' = 3.
Proof.
  apply (proj2 (@first_success_returned a_session a_url [] (PyDict [])
                  (start (scripted [server_error; rate_limited []]
                            (ok_response (PyList []))))
                  2 (PyList []) ltac:(lia))).
  - intros i Hi. destruct i as [|[|i]]; [| |lia].
    + exists (HTTPError server_error). split; reflexivity.
    + exists (PyException (lit "429")). split; reflexivity.
  - reflexivity.
Defined.

(** X10: a 401 stops [_get] at whatever attempt it comes: when the
    attempts before it failed with an exception that is retried, the call
    raises the [SystemExit] for that response and sends nothing more. *)
Theorem get_401_stops_at_any_attempt (s : session) (u : str)
    (kw : list (str * pyval)) (w : world) (j : nat) (r : response) :
  j < 5 ->
  (forall i, i < j -> exists e,
      attempt_result (_get_attempt s u kw)
        (net w (requests_sent w + i) (get_request s u kw)) = Raise e
      /\ is_Exception e = true) ->
  net w (requests_sent w + j) (get_request s u kw) = Resp r ->
  status_code r = 401%Z ->
  exists w',
    _get s u kw w
    = (Raise (SystemExit (unauthorized_guidance ++ firstn 400 (text r))), w')
    /\ requests_sent w' = requests_sent w + S j.
Proof.
  intros Hj Hfail Hnet Hst.
  assert (Hacc : accepted (net w) (get_request s u kw) = true).
  { destruct (accepted (net w) (get_request s u kw)) eqn:E; [reflexivity|].
    destruct (call_of_refused (net w) (requests_sent w + j) _ E) as (e & He).
    rewrite He in Hnet. discriminate Hnet. }
  destruct (retry_from_settles (get_request s u kw) _get_checks get_checks_quiet
              get_checks_alike policy (j := j) (left := 4) 1 w
              (r := Raise (SystemExit (unauthorized_guidance ++ firstn 400 (text r)))))
    as (w' & E & Hs & _); auto; [lia| |].
  - rewrite Hnet.
    change (attempt_result (_get_attempt s u kw) (Resp r)
            = Raise (SystemExit (unauthorized_guidance ++ firstn 400 (text r)))).
    rewrite get_attempt_on_response.
    rewrite get_checks_401 by assumption. reflexivity.
  - exists w'. auto.
Qed.

Lemma get_401_stops_at_any_attempt_witness :
  exists w',
    _get a_session a_url []
      (start (scripted [server_error; server_error] unauthorized))
    = (Raise (SystemExit (unauthorized_guidance ++ text unauthorized)), w')
    /\ requests_sent w' = 3.
Proof.
  apply (@get_401_stops_at_any_attempt a_session a_url []
           (start (scripted [server_error; server_error] unauthorized))
           2 unauthorized ltac:(lia)).
  - intros i Hi. exists (HTTPError server_error).
    destruct i as [|[|i]]; [| |lia]; split; reflexivity.
  - reflexivity.
  - reflexivity.
Defined.

(** ** Which failures are retried *)

(** X11: of the failures of one attempt on a response, [_get] lets exactly
    the 401 through to its caller without retry; [_put] retries every one
    of them, the 401 too. *)
Theorem only_get_401_is_final (s : session) (u : str) (kw : list (str * pyval))
    (payload : pyval) (r : response) (e : exn) :
  (attempt_result (_get_attempt s u kw) (Resp r) = Raise e ->
   (is_Exception e = false <-> status_code r = 401%Z))
  /\
  (attempt_result (_put_attempt s u payload) (Resp r) = Raise e ->
   is_Exception e = true).
Proof.
  split.
  - rewrite get_attempt_on_response.
    set (w0 := log_event (EvRequest (get_request s u kw)) (start (constantly (Resp r)))).
    destruct (status_code r =? 401)%Z eqn:H401.
    + apply Z.eqb_eq in H401. rewrite (get_checks_401 r w0 H401).
      intros E. inversion E. split; auto.
    + apply Z.eqb_neq in H401. intros E.
      assert (Hexc : is_Exception e = true).
      { destruct (status_code r =? 429)%Z eqn:H429.
        - apply Z.eqb_eq in H429.
          destruct (get_checks_429_fails r w0 H429) as (e' & He' & Hexc).
          congruence.
        - revert E.
          unfold _get_checks, when, raise_for_status, json, bind, raise, ret.
          rewrite H429. replace (status_code r =? 401)%Z with false by lia.
          destruct ((400 <=? status_code r)%Z && (status_code r <? 600)%Z);
            [|destruct (json_body r)]; cbn; intros E; inversion E; reflexivity. }
      rewrite Hexc. split; [discriminate | intros; contradiction].
  - rewrite put_attempt_on_response.
    set (w0 := log_event (EvRequest (put_request s u payload))
                 (start (constantly (Resp r)))).
    intros E.
    destruct (status_code r =? 429)%Z eqn:H429.
    + apply Z.eqb_eq in H429.
      destruct (put_checks_429_fails r w0 H429) as (e' & He' & Hexc).
      congruence.
    + revert E.
      unfold _put_checks, when, raise_for_status, json, bind, raise, ret.
      rewrite H429.
      destruct ((400 <=? status_code r)%Z && (status_code r <? 600)%Z);
        [|destruct (json_body r)]; cbn; intros E; inversion E; reflexivity.
Qed.

Lemma only_get_401_is_final_witness :
  is_Exception (HTTPError unauthorized) = true.
Proof.
  exact (proj2 (@only_get_401_is_final a_session a_url [] (PyDict [])
                  unauthorized (HTTPError unauthorized)) eq_refl).
Defined.

(** X12: [_get] and [_put] take every response whose status is outside
    400..599 as a success, whether 2xx or not: with a JSON body they return
    it at the first attempt, after one request and no wait. *)
Theorem non_error_status_returns_json (s : session) (u : str)
    (kw : list (str * pyval)) (payload : pyval) (w : world)
    (r : response) (v : pyval) :
  is_error_status (status_code r) = false ->
  json_body r = Some v ->
  (net w (requests_sent w) (get_request s u kw) = Resp r ->
   _get s u kw w = (Ok v, log_event (EvRequest (get_request s u kw)) w))
  /\
  (net w (requests_sent w) (put_request s u payload) = Resp r ->
   _put s u payload w = (Ok v, log_event (EvRequest (put_request s u payload)) w)).
Proof.
  intros Hst Hjs. split; intros Hnet; apply retry_first_ok.
  - unfold _get_attempt, bind, send. rewrite Hnet. now apply get_checks_json.
  - unfold _put_attempt, bind, send. rewrite Hnet. now apply put_checks_json.
Qed.

Lemma non_error_status_returns_json_witness :
  _get a_session a_url [] (start (always (not_modified (PyList []))))
  = (Ok (PyList []),
     log_event (EvRequest (get_request a_session a_url []))
       (start (always (not_modified (PyList []))))).
Proof.
  apply (proj1 (@non_error_status_returns_json a_session a_url [] PyNone
                  (start (always (not_modified (PyList []))))
                  (not_modified (PyList [])) (PyList []) eq_refl eq_refl)).
  reflexivity.
Defined.

Lemma retry_exhausted_same {A} (req : request) (k : response -> M A)
    (w : world) (e : exn) :
  (forall r, quiet (k r)) ->
  accepted (net w) req = true ->
  is_Exception e = true ->
  (forall w1, net w1 = net w ->
              requests_sent w <= requests_sent w1 < requests_sent w + 5 ->
              fst (bind (send req) k w1) = Raise e) ->
  exists w',
    retry policy (bind (send req) k) w = (Raise (RetryError e), w')
    /\ requests_sent w' = requests_sent w + 5.
Proof.
  intros Hq Hacc Hexc Hall.
  set (fn := bind (send req) k).
  assert (Hw : forall i, i <= 4 ->
             net (attempt_world policy fn 1 w i) = net w
             /\ requests_sent (attempt_world policy fn 1 w i) = requests_sent w + i).
  { intros i Hi. split; [apply (attempt_world_net req k Hq)|].
    unfold fn. rewrite (attempt_world_sent req k Hq), Hacc. reflexivity. }
  destruct (retry_from_exhausted policy fn (left := 4) 1 w) as (e' & H1 & H2).
  - intros i Hi. exists e. split; [|exact Hexc].
    destruct (Hw i Hi) as [Hn Hs]. apply Hall; [exact Hn | lia].
  - destruct (Hw 4 (Nat.le_refl 4)) as [Hn Hs].
    assert (He : Raise e' = Raise e :> result A).
    { rewrite <- H1. apply (Hall _ Hn). lia. }
    inversion He. subst e'.
    exists (snd (fn (attempt_world policy fn 1 w 4))). split; [exact H2|].
    assert (Hq4 : accepted (net (attempt_world policy fn 1 w 4)) req = true)
      by (now rewrite Hn).
    apply (attempt_sent req k Hq) in Hq4. fold fn in Hq4. lia.
Qed.

(** X13: a success without a JSON body counts as a failure that is
    retried: when five answers in a row have a status outside 400..599 and
    a body that is not JSON, [_put] (and [_get]) has sent the request five
    times and raises a [RetryError] around the decoding error. *)
Theorem undecodable_success_is_resent (s : session) (u : str)
    (kw : list (str * pyval)) (payload : pyval) (w : world) :
  ((forall i, i < 5 -> exists r,
       net w (requests_sent w + i) (put_request s u payload) = Resp r
       /\ is_error_status (status_code r) = false /\ json_body r = None) ->
   exists w', _put s u payload w = (Raise (RetryError JSONDecodeError), w')
              /\ requests_sent w' = requests_sent w + 5)
  /\
  ((forall i, i < 5 -> exists r,
       net w (requests_sent w + i) (get_request s u kw) = Resp r
       /\ is_error_status (status_code r) = false /\ json_body r = None) ->
   exists w', _get s u kw w = (Raise (RetryError JSONDecodeError), w')
              /\ requests_sent w' = requests_sent w + 5).
Proof.
  split; intros H.
  - apply (retry_exhausted_same (put_request s u payload) _put_checks w
             put_checks_quiet); [|reflexivity|].
    + destruct (H 0) as (r & Hnet & _); [lia|]. apply (call_sent _ (requests_sent w + 0)).
      intros e He. rewrite He in Hnet. discriminate.
    + intros w1 Hn Hs.
      destruct (H (requests_sent w1 - requests_sent w)) as (r & Hnet & Hst & Hjs);
        [lia|].
      replace (requests_sent w + (requests_sent w1 - requests_sent w))
        with (requests_sent w1) in Hnet by lia.
      unfold bind, send. rewrite Hn, Hnet.
      now rewrite put_checks_not_json.
  - apply (retry_exhausted_same (get_request s u kw) _get_checks w
             get_checks_quiet); [|reflexivity|].
    + destruct (H 0) as (r & Hnet & _); [lia|]. apply (call_sent _ (requests_sent w + 0)).
      intros e He. rewrite He in Hnet. discriminate.
    + intros w1 Hn Hs.
      destruct (H (requests_sent w1 - requests_sent w)) as (r & Hnet & Hst & Hjs);
        [lia|].
      replace (requests_sent w + (requests_sent w1 - requests_sent w))
        with (requests_sent w1) in Hnet by lia.
      unfold bind, send. rewrite Hn, Hnet.
      now rewrite get_checks_not_json.
Qed.

Lemma undecodable_success_is_resent_witness :
  exists w',
    _put a_session a_url (PyDict []) (start (always no_content))
    = (Raise (RetryError JSONDecodeError), w')
    /\ requests_sent w' = 5.
Proof.
  apply (proj1 (@undecodable_success_is_resent a_session a_url [] (PyDict [])
                  (start (always no_content)))).
  intros i Hi. exists no_content. repeat split.
Defined.

(** ** Rate limiting, again *)

Lemma headers_get_absent (h : list (str * str)) (name default : str) :
  (forall k v, In (k, v) h -> py_lower k <> py_lower name) ->
  headers_get h name default = default.
Proof.
  induction h as [|[k v] rest IH]; simpl; [reflexivity|]. intros H.
  destruct (str_eqb (py_lower k) (py_lower name)) eqn:E.
  - apply str_eqb_eq in E. exfalso. apply (H k v); auto.
  - apply IH. intros k' v' Hin. apply (H k' v'). auto.
Qed.

(** X14: on a 429 whose headers have no [Retry-After] under any spelling
    of its case, [rate_limit_sleep] blocks for exactly 1 second. *)
Theorem retry_after_absent_sleeps_1 (r : response) (w : world) :
  status_code r = 429%Z ->
  (forall k v, In (k, v) (headers r) -> py_lower k <> lit "retry-after") ->
  rate_limit_sleep r w = (Ok tt, log_event (EvSleep 1) w).
Proof.
  intros Hst Habs. unfold rate_limit_sleep. rewrite Hst.
  rewrite (headers_get_absent (headers r) (lit "Retry-After") (lit "1") Habs).
  reflexivity.
Qed.

Lemma retry_after_absent_sleeps_1_witness :
  rate_limit_sleep (rate_limited [(lit "Content-Type", lit "application/json")])
    (start (always server_error))
  = (Ok tt, log_event (EvSleep 1) (start (always server_error))).
Proof.
  apply retry_after_absent_sleeps_1; [reflexivity|].
  intros k v [H | []]. inversion H. discriminate.
Defined.

Example int_skips_no_separator :
  py_int ["028"%char; "5"%char] = Raise (ValueError ["028"%char; "5"%char])
  /\ py_int ["160"%char; "5"%char; "010"%char] = Ok 5%Z.
Proof. split; reflexivity. Qed.

Example int_digit_limit :
  py_int (repeat "1"%char 4300) = Ok ((10 ^ 4300 - 1) / 9)%Z
  /\ py_int (repeat "1"%char 4301 ++ lit "x")
     = Raise (ValueError (digit_limit_message 4301))
  /\ py_int (lit "x" ++ repeat "1"%char 4301)
     = Raise (ValueError (lit "x" ++ repeat "1"%char 4301)).
Proof. repeat split; vm_compute; reflexivity. Qed.

(** X15: [rate_limit_sleep] does nothing for a status other than 429. On
    a 429 whose [Retry-After] reads as the integer [n] (as [int] reads it:
    at most 4300 digits, no separator characters around), it blocks for [n]
    seconds when [n] is between 0 and 9223372036 and the clock takes the
    wait, which it does up to 4294967 seconds; a longer wait that the clock
    of the platform turns down raises [OSError], a negative [n] raises
    [ValueError] and an [n] beyond 9223372036 either way [OverflowError],
    all three without blocking. *)
Theorem retry_after_value_decides (r : response) (n : Z) (w : world) :
  (status_code r <> 429%Z -> rate_limit_sleep r w = (Ok tt, w))
  /\
  (status_code r = 429%Z ->
   py_int (retry_after_of r) = Ok n ->
   ((0 <= n <= max_sleep)%Z -> clock_takes w n ->
    rate_limit_sleep r w = (Ok tt, log_event (EvSleep n) w))
   /\
   ((short_sleep < n <= max_sleep)%Z -> clock_refuses (net w) n = true ->
    rate_limit_sleep r w = (Raise (OSError 22), w))
   /\
   ((- max_sleep <= n < 0)%Z ->
    rate_limit_sleep r w
    = (Raise (ValueError (lit "sleep length must be non-negative")), w))
   /\
   ((n < - max_sleep \/ max_sleep < n)%Z ->
    rate_limit_sleep r w = (Raise OverflowError, w))).
Proof.
  unfold retry_after_of, max_sleep. split.
  - intros Hst. unfold rate_limit_sleep.
    replace (status_code r =? 429)%Z with false by lia. reflexivity.
  - intros Hst Hint. repeat split.
    + intros Hn Hc. now apply rate_limit_sleep_blocks.
    + intros Hn Hc. unfold rate_limit_sleep, bind, lift, time_sleep.
      rewrite Hst, Hint. cbn [Z.eqb Pos.eqb].
      assert (Hs : (short_sleep <? n)%Z = true) by lia.
      unfold short_sleep in Hn.
      replace ((n <? -9223372036)%Z || (9223372036 <? n)%Z) with false by lia.
      replace (n <? 0)%Z with false by lia.
      rewrite Hs, Hc. reflexivity.
    + intros Hn. unfold rate_limit_sleep, bind, lift, time_sleep.
      rewrite Hst, Hint. cbn [Z.eqb Pos.eqb].
      replace ((n <? -9223372036)%Z || (9223372036 <? n)%Z) with false by lia.
      replace (n <? 0)%Z with true by lia. reflexivity.
    + intros Hn. unfold rate_limit_sleep, bind, lift, time_sleep.
      rewrite Hst, Hint. cbn [Z.eqb Pos.eqb].
      replace ((n <? -9223372036)%Z || (9223372036 <? n)%Z) with true by lia.
      reflexivity.
Qed.

Lemma retry_after_value_decides_witness :
  rate_limit_sleep (rate_limited [(lit "retry-after", lit " 30 ")])
    (start (always server_error))
  = (Ok tt, log_event (EvSleep 30) (start (always server_error))).
Proof.
  apply (proj1 (proj2 (retry_after_value_decides
                         (rate_limited [(lit "retry-after", lit " 30 ")]) 30
                         (start (always server_error)))
                  eq_refl eq_refl));
    [unfold max_sleep; lia | left; unfold short_sleep; lia].
Defined.

Example long_wait_refused :
  rate_limit_sleep (rate_limited [(lit "Retry-After", lit "9223372036")])
    (start (always server_error))
  = (Raise (OSError 22), start (always server_error)).
Proof. reflexivity. Qed.

Lemma retry_from_step {A} (p : retry_policy) (l n : nat) (fn : M A)
    (w w1 : world) (e : exn) :
  fn w = (Raise e, w1) ->
  is_Exception e = true ->
  retry_from p (S l) n fn w
  = retry_from p l (S n) fn (log_event (EvBackoff (wait p n)) w1).
Proof. intros H He. simpl. now rewrite H, He. Qed.

Lemma retry_from_ok {A} (p : retry_policy) (l n : nat) (fn : M A)
    (w w1 : world) (a : A) :
  fn w = (Ok a, w1) -> retry_from p l n fn w = (Ok a, w1).
Proof. intros H. destruct l; simpl; now rewrite H. Qed.

Lemma get_checks_429 (r : response) (n : Z) (w : world) :
  status_code r = 429%Z ->
  py_int (retry_after_of r) = Ok n ->
  (0 <= n <= max_sleep)%Z ->
  clock_takes w n ->
  _get_checks r w
  = (Raise (PyException (lit "429 rate limited")), log_event (EvSleep n) w).
Proof.
  intros Hst Hint Hn Hc. unfold _get_checks, when, bind.
  rewrite Hst. cbn [Z.eqb Pos.eqb ret].
  rewrite (@rate_limit_sleep_blocks r n w Hst Hint Hn Hc). reflexivity.
Qed.

(** X16: when [_get] is answered 429 with a [Retry-After] of [n] seconds,
    a wait that the clock takes, and then with a success, it returns the
    body of the second answer after blocking [n] seconds for the server and
    1 more second for the backoff of the decorator: both waits happen. *)
Theorem get_429_then_success (s : session) (u : str) (kw : list (str * pyval))
    (w : world) (r1 r2 : response) (n : Z) (v : pyval) :
  net w (requests_sent w) (get_request s u kw) = Resp r1 ->
  status_code r1 = 429%Z ->
  py_int (retry_after_of r1) = Ok n ->
  (0 <= n <= max_sleep)%Z ->
  clock_takes w n ->
  net w (S (requests_sent w)) (get_request s u kw) = Resp r2 ->
  is_error_status (status_code r2) = false ->
  json_body r2 = Some v ->
  _get s u kw w
  = (Ok v,
     {| net := net w;
        log := log w ++ [EvRequest (get_request s u kw); EvSleep n;
                         EvBackoff 1; EvRequest (get_request s u kw)] |}).
Proof.
  intros Hn1 Hst1 Hint Hn Hc Hn2 Hst2 Hjs.
  set (rq := get_request s u kw) in *.
  set (w1 := log_event (EvSleep n) (log_event (EvRequest rq) w)).
  assert (A1 : _get_attempt s u kw w = (Raise (PyException (lit "429 rate limited")), w1)).
  { unfold _get_attempt, bind, send. fold rq. rewrite Hn1.
    now apply get_checks_429. }
  set (w2 := log_event (EvBackoff 1) w1).
  assert (Hs2 : requests_sent w2 = S (requests_sent w)).
  { unfold w2, w1. rewrite !requests_sent_other by reflexivity.
    apply requests_sent_request. }
  assert (A2 : _get_attempt s u kw w2 = (Ok v, log_event (EvRequest rq) w2)).
  { unfold _get_attempt, bind, send. fold rq. rewrite Hs2.
    change (net w2) with (net w). rewrite Hn2. now apply get_checks_json. }
  unfold _get, retry. change (stop_after_attempt policy - 1) with 4.
  rewrite (@retry_from_step _ policy 3 1 _ _ _ _ A1 eq_refl).
  change (wait policy 1) with 1%Z. fold w2.
  rewrite (@retry_from_ok _ policy 3 2 _ _ _ _ A2).
  f_equal. unfold log_event, w2, w1, log_event. simpl.
  now rewrite <- !app_assoc.
Qed.

Lemma get_429_then_success_witness :
  fst (_get a_session orgs_url []
         (start (scripted [rate_limited [(lit "Retry-After", lit "2")]]
                   (ok_response (PyList two_orgs)))))
  = Ok (PyList two_orgs).
Proof.
  rewrite (@get_429_then_success a_session orgs_url []
             (start (scripted [rate_limited [(lit "Retry-After", lit "2")]]
                       (ok_response (PyList two_orgs))))
             (rate_limited [(lit "Retry-After", lit "2")])
             (ok_response (PyList two_orgs)) 2 (PyList two_orgs)
             eq_refl eq_refl eq_refl ltac:(unfold max_sleep; lia)
             ltac:(left; unfold short_sleep; lia)
             eq_refl eq_refl eq_refl).
  reflexivity.
Defined.

(** ** Resource resolver, again *)

Lemma resolvers_scan (s : session) (org_id name : str) (w w' : world)
    (data : pyval) :
  (org_list_is s w w' data ->
   find_org_id_by_name s name w = for_name data name w')
  /\
  (net_list_is s org_id w w' data ->
   find_network_id s org_id name w = for_name data name w').
Proof.
  unfold org_list_is, net_list_is. split; intros H.
  - unfold find_org_id_by_name, bind. now rewrite H.
  - unfold find_network_id, bind. now rewrite H.
Qed.

Lemma for_name_list (items : list pyval) (name : str) (w : world) :
  for_name (PyList items) name w = (scan_for_name items name, w).
Proof. reflexivity. Qed.

Lemma scan_passed_over (pre rest : list pyval) (name : str) :
  forallb (passed_over name) pre = true ->
  scan_for_name (pre ++ rest) name = scan_for_name rest name.
Proof.
  induction pre as [|o pre IH]; [reflexivity|].
  cbn [forallb app scan_for_name]. intros H.
  apply andb_true_iff in H as [Ho Hpre]. unfold passed_over in Ho.
  apply andb_true_iff in Ho as [Hd Hn]. apply negb_true_iff in Hn.
  destruct o as [| | | | | |d]; try discriminate.
  destruct (has_name_get d name) as (v & Hget & Heq).
  rewrite Hget, Heq, Hn. now apply IH.
Qed.

Lemma scan_match_first (o : pyval) (post : list pyval) (name : str) :
  has_name o name = true ->
  scan_for_name (o :: post) name = py_getitem o (lit "id").
Proof.
  intros Hn. destruct o as [| | | | | |d]; try discriminate.
  destruct (has_name_get d name) as (v & Hget & Heq).
  cbn [scan_for_name]. now rewrite Hget, Heq, Hn.
Qed.

Lemma scan_stops_at_match (pre post : list pyval) (o : pyval) (name : str) :
  has_name o name = true ->
  scan_for_name (pre ++ o :: post) name = scan_for_name (pre ++ [o]) name.
Proof.
  intros Hn. induction pre as [|x pre IH]; cbn [app scan_for_name].
  - change (scan_for_name (o :: post) name = scan_for_name [o] name).
    now rewrite !scan_match_first.
  - destruct (py_get x (lit "name")) as [v | e]; [|reflexivity].
    destruct (py_eq_str v name); [reflexivity | exact IH].
Qed.

(** X17: the resolvers never look past the first entry named as the
    target: whatever follows it in the list, valid or not, the result is
    the one for the list cut after that entry. *)
Theorem resolver_ignores_rest (s : session) (org_id name : str) (w w' : world)
    (pre post : list pyval) (o : pyval) :
  has_name o name = true ->
  (org_list_is s w w' (PyList (pre ++ o :: post)) ->
   find_org_id_by_name s name w = (scan_for_name (pre ++ [o]) name, w'))
  /\
  (net_list_is s org_id w w' (PyList (pre ++ o :: post)) ->
   find_network_id s org_id name w = (scan_for_name (pre ++ [o]) name, w')).
Proof.
  intros Hn.
  destruct (resolvers_scan s org_id name w w' (PyList (pre ++ o :: post))) as [R1 R2].
  split; intros H; [rewrite (R1 H) | rewrite (R2 H)];
    rewrite for_name_list; f_equal; now apply scan_stops_at_match.
Qed.

Lemma resolver_ignores_rest_witness :
  find_org_id_by_name a_session (lit "A")
    (start (always (ok_response (PyList [entity "1" "A"; PyInt 7]))))
  = (Ok (PyStr (lit "1")),
     log_event (EvRequest (get_request a_session orgs_url []))
       (start (always (ok_response (PyList [entity "1" "A"; PyInt 7]))))).
Proof.
  apply (proj1 (@resolver_ignores_rest a_session [] (lit "A")
                  (start (always (ok_response (PyList [entity "1" "A"; PyInt 7])))) _
                  [] [PyInt 7] (entity "1" "A") eq_refl)).
  reflexivity.
Defined.

(** X18: when the first entry named as the target has no ["id"], after
    dict entries with other names only, both resolvers raise
    [KeyError('id')]; they do not go on to a later entry and do not return
    [None]. *)
Theorem resolver_match_without_id (s : session) (org_id name : str)
    (w w' : world) (pre post : list pyval) (d : list (str * pyval)) :
  forallb (passed_over name) pre = true ->
  has_name (PyDict d) name = true ->
  dict_get d (lit "id") = None ->
  (org_list_is s w w' (PyList (pre ++ PyDict d :: post)) ->
   find_org_id_by_name s name w = (Raise (KeyError (lit "id")), w'))
  /\
  (net_list_is s org_id w w' (PyList (pre ++ PyDict d :: post)) ->
   find_network_id s org_id name w = (Raise (KeyError (lit "id")), w')).
Proof.
  intros Hpre Hn Hid.
  destruct (resolvers_scan s org_id name w w' (PyList (pre ++ PyDict d :: post)))
    as [R1 R2].
  assert (E : scan_for_name (pre ++ PyDict d :: post) name = Raise (KeyError (lit "id"))).
  { rewrite (scan_passed_over pre (PyDict d :: post) name Hpre).
    rewrite (scan_match_first (PyDict d) post name Hn).
    unfold py_getitem. now rewrite Hid. }
  split; intros H; [rewrite (R1 H) | rewrite (R2 H)];
    rewrite for_name_list; now rewrite E.
Qed.

Lemma resolver_match_without_id_witness :
  find_org_id_by_name a_session (lit "B")
    (start (always (ok_response (PyList [entity "1" "A"; entry_without_id; entity "2" "B"]))))
  = (Raise (KeyError (lit "id")),
     log_event (EvRequest (get_request a_session orgs_url []))
       (start (always (ok_response
                         (PyList [entity "1" "A"; entry_without_id; entity "2" "B"]))))).
Proof.
  apply (proj1 (@resolver_match_without_id a_session [] (lit "B")
                  (start (always (ok_response
                     (PyList [entity "1" "A"; entry_without_id; entity "2" "B"])))) _
                  [entity "1" "A"] [entity "2" "B"] [(lit "name", PyStr (lit "B"))]
                  eq_refl eq_refl eq_refl)).
  reflexivity.
Defined.

(** X19: an entry that is not a dict, reached before any entry named as
    the target, makes both resolvers raise [AttributeError], also when a
    matching entry comes later. *)
Theorem resolver_entry_not_dict (s : session) (org_id name : str)
    (w w' : world) (pre post : list pyval) (o : pyval) :
  forallb (passed_over name) pre = true ->
  is_dict o = false ->
  (org_list_is s w w' (PyList (pre ++ o :: post)) ->
   find_org_id_by_name s name w = (Raise (AttributeError (lit "get")), w'))
  /\
  (net_list_is s org_id w w' (PyList (pre ++ o :: post)) ->
   find_network_id s org_id name w = (Raise (AttributeError (lit "get")), w')).
Proof.
  intros Hpre Ho.
  destruct (resolvers_scan s org_id name w w' (PyList (pre ++ o :: post)))
    as [R1 R2].
  assert (E : scan_for_name (pre ++ o :: post) name
              = Raise (AttributeError (lit "get"))).
  { rewrite (scan_passed_over pre (o :: post) name Hpre).
    destruct o; try discriminate; reflexivity. }
  split; intros H; [rewrite (R1 H) | rewrite (R2 H)];
    rewrite for_name_list; now rewrite E.
Qed.

Lemma resolver_entry_not_dict_witness :
  find_network_id a_session (lit "549236") (lit "B")
    (start (always (ok_response (PyList [entity "1" "A"; PyNone; entity "2" "B"]))))
  = (Raise (AttributeError (lit "get")),
     log_event (EvRequest (get_request a_session (nets_url (lit "549236")) []))
       (start (always (ok_response (PyList [entity "1" "A"; PyNone; entity "2" "B"]))))).
Proof.
  apply (proj2 (@resolver_entry_not_dict a_session (lit "549236") (lit "B")
                  (start (always (ok_response
                     (PyList [entity "1" "A"; PyNone; entity "2" "B"])))) _
                  [entity "1" "A"] [entity "2" "B"] PyNone eq_refl eq_refl)).
  reflexivity.
Defined.

(** X20: when the body is not a list, the resolvers do not report it as
    such: a JSON object with at least one key (or a non-empty string) gives
    [AttributeError], [null], a boolean or a number gives [TypeError], and
    an empty object gives [None], as if nothing was found. *)
Theorem resolver_body_not_list (s : session) (org_id name : str)
    (w w' : world) (data : pyval) (r : result pyval) :
  not_list_outcome data = Some r ->
  (org_list_is s w w' data -> find_org_id_by_name s name w = (r, w'))
  /\
  (net_list_is s org_id w w' data -> find_network_id s org_id name w = (r, w')).
Proof.
  intros Hr.
  destruct (resolvers_scan s org_id name w w' data) as [R1 R2].
  assert (E : for_name data name w' = (r, w')).
  { destruct data as [| | | | [|c t] | |[|[k v] rest]]; inversion Hr; reflexivity. }
  split; intros H; [rewrite (R1 H) | rewrite (R2 H)]; exact E.
Qed.

Lemma resolver_body_not_list_witness :
  find_org_id_by_name a_session (lit "B")
    (start (always (ok_response error_object)))
  = (Raise (AttributeError (lit "get")),
     log_event (EvRequest (get_request a_session orgs_url []))
       (start (always (ok_response error_object)))).
Proof.
  apply (proj1 (@resolver_body_not_list a_session [] (lit "B")
                  (start (always (ok_response error_object))) _ error_object
                  _ eq_refl)).
  reflexivity.
Defined.

(** ** The callers under a 401 *)

Lemma get_401_raises (s : session) (u : str) (kw : list (str * pyval))
    (w : world) (r : response) :
  net w (requests_sent w) (get_request s u kw) = Resp r ->
  status_code r = 401%Z ->
  _get s u kw w
  = (Raise (SystemExit (unauthorized_guidance ++ firstn 400 (text r))),
     log_event (EvRequest (get_request s u kw)) w).
Proof.
  intros Hnet Hst. apply retry_not_Exception; [|reflexivity].
  unfold _get_attempt, bind, send. rewrite Hnet. now apply get_checks_401.
Qed.

(** X21: a 401 on their request ends [sanity_list_orgs] and both
    resolvers with the [SystemExit] of [_get]: they have sent that one
    request, printed nothing and looked at no entry. *)
Theorem unauthorized_stops_callers (s : session) (org_id name : str)
    (w : world) (r : response) :
  status_code r = 401%Z ->
  let stop := Raise (SystemExit (unauthorized_guidance ++ firstn 400 (text r))) in
  (net w (requests_sent w) (get_request s orgs_url []) = Resp r ->
   sanity_list_orgs s w = (stop, log_event (EvRequest (get_request s orgs_url [])) w)
   /\ find_org_id_by_name s name w
      = (stop, log_event (EvRequest (get_request s orgs_url [])) w))
  /\
  (net w (requests_sent w) (get_request s (nets_url org_id) []) = Resp r ->
   find_network_id s org_id name w
   = (stop, log_event (EvRequest (get_request s (nets_url org_id) [])) w)).
Proof.
  intros Hst stop. split; [split|]; intros.
  - unfold sanity_list_orgs, bind. now rewrite (get_401_raises s orgs_url [] w H Hst).
  - unfold find_org_id_by_name, bind. now rewrite (get_401_raises s orgs_url [] w H Hst).
  - unfold find_network_id, bind.
    now rewrite (get_401_raises s (nets_url org_id) [] w H Hst).
Qed.

Lemma unauthorized_stops_callers_witness :
  sanity_list_orgs a_session (start (always unauthorized))
  = (Raise (SystemExit (unauthorized_guidance ++ text unauthorized)),
     log_event (EvRequest (get_request a_session orgs_url []))
       (start (always unauthorized))).
Proof.
  exact (proj1 (proj1 (@unauthorized_stops_callers a_session [] []
                         (start (always unauthorized)) unauthorized eq_refl)
                  eq_refl)).
Defined.

(** ** Sanity check, again *)

Lemma names_of_dicts (items : list pyval) :
  forallb is_dict items = true ->
  names_of items = Ok (map name_or_none items).
Proof.
  induction items as [|o rest IH]; [reflexivity|].
  cbn [forallb names_of map]. intros H. apply andb_true_iff in H as [Ho Hrest].
  destruct o as [| | | | | |d]; try discriminate.
  rewrite (IH Hrest). unfold py_get, name_or_none, field.
  destruct (dict_get d (lit "name")); reflexivity.
Qed.

Lemma names_of_not_dict (items : list pyval) :
  forallb is_dict items = false ->
  names_of items = Raise (AttributeError (lit "get")).
Proof.
  induction items as [|o rest IH]; [discriminate|].
  cbn [forallb names_of]. intros H. apply andb_false_iff in H.
  destruct o as [| | | | | |d]; try reflexivity.
  destruct H as [H | H]; [discriminate|]. rewrite (IH H).
  unfold py_get. destruct (dict_get d (lit "name")); reflexivity.
Qed.

(** X22: for a list of dicts, [sanity_list_orgs] prints the number of all
    entries, then the names of the first five entries at most, with [None]
    in the place of an entry that has no name, and returns [None]. *)
Theorem sanity_prints_first_five (s : session) (w w' : world)
    (items : list pyval) :
  org_list_is s w w' (PyList items) ->
  forallb is_dict items = true ->
  sanity_list_orgs s w
  = (Ok PyNone,
     {| net := net w';
        log := log w' ++ [EvPrint (sanity_line (length items));
                          EvPrintVal (PyList (map name_or_none (firstn 5 items)))] |})
  /\ length (map name_or_none (firstn 5 items)) = Nat.min 5 (length items).
Proof.
  unfold org_list_is. intros Hget Hd. split.
  - unfold sanity_list_orgs, bind. rewrite Hget.
    unfold lift, print, print_val, emit, ret. cbn [py_len py_iter].
    rewrite (names_of_dicts items Hd), firstn_map.
    unfold log_event. cbn [net log]. now rewrite <- app_assoc.
  - now rewrite length_map, length_firstn.
Qed.

Lemma sanity_prints_first_five_witness :
  log (snd (sanity_list_orgs a_session
              (start (always (ok_response (PyList six_orgs))))))
  = [EvRequest (get_request a_session orgs_url []);
     EvPrint (check_mark ++ lit " Sanity: fetched 6 orgs");
     EvPrintVal (PyList [PyStr (lit "A"); PyStr (lit "B"); PyNone;
                         PyStr (lit "D"); PyStr (lit "E")])].
Proof.
  rewrite (proj1 (@sanity_prints_first_five a_session
                    (start (always (ok_response (PyList six_orgs))))
                    (log_event (EvRequest (get_request a_session orgs_url []))
                       (start (always (ok_response (PyList six_orgs)))))
                    six_orgs eq_refl eq_refl)).
  reflexivity.
Defined.

(** X23: one entry that is not a dict, anywhere in the list, also beyond
    the fifth, makes [sanity_list_orgs] raise [AttributeError]; the line
    with the count has been printed by then, the names have not. *)
Theorem sanity_entry_not_dict (s : session) (w w' : world)
    (items : list pyval) :
  org_list_is s w w' (PyList items) ->
  forallb is_dict items = false ->
  sanity_list_orgs s w
  = (Raise (AttributeError (lit "get")),
     log_event (EvPrint (sanity_line (length items))) w').
Proof.
  unfold org_list_is. intros Hget Hd.
  unfold sanity_list_orgs, bind. rewrite Hget.
  unfold lift, print, print_val, emit, ret. cbn [py_len py_iter].
  now rewrite (names_of_not_dict items Hd).
Qed.

Lemma sanity_entry_not_dict_witness :
  sanity_list_orgs a_session
    (start (always (ok_response (PyList (six_orgs ++ [PyInt 7])))))
  = (Raise (AttributeError (lit "get")),
     log_event (EvPrint (sanity_line 7))
       (log_event (EvRequest (get_request a_session orgs_url []))
          (start (always (ok_response (PyList (six_orgs ++ [PyInt 7]))))))).
Proof.
  apply (@sanity_entry_not_dict a_session
           (start (always (ok_response (PyList (six_orgs ++ [PyInt 7]))))) _
           (six_orgs ++ [PyInt 7])); reflexivity.
Defined.

(** ** The program *)

Section Extends.
Variable P : request -> Prop.

Lemma extends_refl (w : world) : extends P 0 w w.
Proof.
  exists []. simpl. rewrite world_eta. repeat split; auto. intros r [].
Qed.

Lemma extends_weaken (n m : nat) (w w' : world) :
  n <= m -> extends P n w w' -> extends P m w w'.
Proof. intros H (evs & E & G & L). exists evs. repeat split; auto. lia. Qed.

Lemma extends_trans (a b : nat) (w w1 w2 : world) :
  extends P a w w1 -> extends P b w1 w2 -> extends P (a + b) w w2.
Proof.
  intros (e1 & E1 & G1 & L1) (e2 & E2 & G2 & L2). subst w1. simpl in E2.
  exists (e1 ++ e2). rewrite E2, app_assoc, filter_app, length_app.
  repeat split; [|lia].
  intros r Hin. apply in_app_or in Hin as [Hin | Hin]; auto.
Qed.

Lemma extends_events (evs : list event) (w : world) :
  filter is_request evs = [] -> extends P 0 w (log_events evs w).
Proof.
  intros H. exists evs. rewrite H. repeat split; auto.
  intros r Hin.
  assert (Hf : In (EvRequest r) (filter is_request evs))
    by (apply filter_In; auto).
  rewrite H in Hf. destruct Hf.
Qed.

Lemma extends_event (e : event) (w : world) :
  is_request e = false -> extends P 0 w (log_event e w).
Proof.
  intros H. apply (extends_events [e] w). simpl. now rewrite H.
Qed.

Lemma reads_value {A} (r : result A) : reads_at_most P 0 (lift r).
Proof. intros w. apply (extends_refl w). Qed.

Lemma reads_ret {A} (a : A) : reads_at_most P 0 (ret a).
Proof. intros w. apply (extends_refl w). Qed.

Lemma reads_emit (e : event) : is_request e = false -> reads_at_most P 0 (emit e).
Proof. intros H w. now apply (extends_event e w). Qed.

Lemma reads_bind {A B} (n m : nat) (c : M A) (k : A -> M B) :
  reads_at_most P n c -> (forall a, reads_at_most P m (k a)) ->
  reads_at_most P (n + m) (bind c k).
Proof.
  intros Hc Hk w. unfold bind. pose proof (Hc w) as H1.
  destruct (c w) as [[a | e] w1]; simpl in H1.
  - apply (extends_trans H1). apply (Hk a w1).
  - apply (extends_weaken (n := n)); [lia | exact H1].
Qed.

Lemma reads_get (s : session) (u : str) (kw : list (str * pyval)) :
  P (get_request s u kw) -> reads_at_most P 5 (_get s u kw).
Proof.
  intros HP w.
  destruct (executor_trace (get_request s u kw) _get_checks w get_checks_only_sleeps)
    as (m & evs & E & Hm & R & B & X).
  change (snd (_get s u kw w) = {| net := net w; log := log w ++ evs |}) in E.
  exists evs. repeat split; auto.
  - intros r Hin.
    assert (Hf : In (EvRequest r) (filter is_request evs))
      by (apply filter_In; auto).
    rewrite R in Hf. apply repeat_spec in Hf. inversion Hf. exact HP.
  - rewrite R, repeat_length.
    destruct (accepted (net w) (get_request s u kw)); lia.
Qed.

Lemma reads_for_name (data : pyval) (name : str) :
  reads_at_most P 0 (for_name data name).
Proof.
  unfold for_name. apply (reads_bind (n := 0) (m := 0)); [apply reads_value|].
  intros items. apply reads_value.
Qed.

Lemma reads_find_org (s : session) (name : str) :
  P (get_request s orgs_url []) ->
  reads_at_most P 5 (find_org_id_by_name s name).
Proof.
  intros HP. unfold find_org_id_by_name.
  apply (reads_bind (n := 5) (m := 0)); [now apply reads_get|].
  intros data. apply reads_for_name.
Qed.

Lemma reads_find_network (s : session) (org_id name : str) :
  P (get_request s (nets_url org_id) []) ->
  reads_at_most P 5 (find_network_id s org_id name).
Proof.
  intros HP. unfold find_network_id.
  apply (reads_bind (n := 5) (m := 0)); [now apply reads_get|].
  intros data. apply reads_for_name.
Qed.

Lemma reads_sanity (s : session) :
  P (get_request s orgs_url []) -> reads_at_most P 5 (sanity_list_orgs s).
Proof.
  intros HP. unfold sanity_list_orgs.
  apply (reads_bind (n := 5) (m := 0)); [now apply reads_get|]. intros data.
  apply (reads_bind (n := 0) (m := 0)); [apply reads_value|]. intros n.
  apply (reads_bind (n := 0) (m := 0)); [now apply reads_emit|]. intros _.
  apply (reads_bind (n := 0) (m := 0)); [apply reads_value|]. intros items.
  apply (reads_bind (n := 0) (m := 0)); [apply reads_value|]. intros names.
  apply (reads_bind (n := 0) (m := 0)); [now apply reads_emit|]. intros _.
  apply reads_ret.
Qed.
End Extends.

Lemma report_no_request (h : host) (api : str) :
  filter is_request (report h api) = [].
Proof. reflexivity. Qed.

Lemma requests_sent_events (evs : list event) (w : world) :
  filter is_request evs = [] ->
  requests_sent (log_events evs w) = requests_sent w.
Proof.
  intros H. unfold requests_sent, log_events. simpl.
  rewrite filter_app, H, app_nil_r. reflexivity.
Qed.

(** X24: when the key read from the environment is not accepted, [main]
    prints its seven report lines and exits with the message that names the
    [.env] path; it has sent no request. *)
Theorem main_rejects_before_network (py_str : pyval -> str) (h : host) (w : world) :
  validate (raw_env h) = false ->
  main py_str h w
  = (Exited (SystemExit (key_error_message h)),
     log_events (report h (_clean_key (raw_env h))) w)
  /\ requests_sent (snd (main py_str h w)) = requests_sent w.
Proof.
  unfold validate. intros H. apply negb_false_iff in H.
  assert (E : main py_str h w
              = (Exited (SystemExit (key_error_message h)),
                 log_events (report h (_clean_key (raw_env h))) w)).
  { unfold main. now rewrite H. }
  split; [exact E|]. rewrite E. apply requests_sent_events, report_no_request.
Qed.

Lemma main_rejects_before_network_witness :
  fst (main str_of_id (a_host (Some "your_api_key_here"%string)) (start (always unauthorized)))
  = Exited (SystemExit (key_error_message (a_host (Some "your_api_key_here"%string))))
  /\ requests_sent
       (snd (main str_of_id (a_host (Some "your_api_key_here"%string))
               (start (always unauthorized)))) = 0.
Proof.
  destruct (@main_rejects_before_network str_of_id (a_host (Some "your_api_key_here"%string))
              (start (always unauthorized)) eq_refl) as [E R].
  split; [now rewrite E | exact R].
Defined.

Lemma session_headers (k : str) :
  s_headers (meraki_session (make_headers k))
  = [ (lit "User-Agent", lit "ena-mac-requests/1.0");
      (lit "Accept-Encoding", headers_get default_headers (lit "Accept-Encoding") []);
      (lit "Accept", lit "application/json");
      (lit "Connection", headers_get default_headers (lit "Connection") []);
      (lit "Authorization", lit "Bearer " ++ _clean_key (Some k));
      (lit "X-Cisco-Meraki-API-Key", _clean_key (Some k));
      (lit "Content-Type", lit "application/json") ].
Proof. reflexivity. Qed.

Lemma main_request_headers (h : host) (r : request) :
  main_request h r ->
  method r = GET /\ kwargs r = [] /\ json_payload r = None /\ timeout r = 20%Z
  /\ (forall name value,
        In (name, value) (make_headers (_clean_key (raw_env h))) ->
        In (name, value) (sent_headers r)
        /\ forall d, headers_get (sent_headers r) name d = value)
  /\ map fst (sent_headers r)
     = map fst default_headers
       ++ [lit "Authorization"; lit "X-Cisco-Meraki-API-Key"; lit "Content-Type"].
Proof.
  intros (Hm & Hh & Hk & Hj & Ht). repeat split; auto.
  - rewrite Hh, session_headers.
    simpl in H.
    repeat (destruct H as [H | H]; [inversion H; subst; simpl; tauto|]).
    destruct H.
  - intros d. rewrite Hh, session_headers.
    simpl in H.
    repeat (destruct H as [H | H]; [inversion H; subst; reflexivity|]).
    destruct H.
  - rewrite Hh, session_headers. reflexivity.
Qed.

(** X25: whatever its host and the transport, [main] only reads: the
    transport is kept, and the log gains at most 15 requests, every one of
    them a GET without further argument or payload and with the timeout of
    20 seconds. Each of the five headers made from the key that was read is
    among the headers of every request, and is what a lookup of its name
    finds there; beside them the requests carry the headers of a new
    session that those five do not replace, [Accept-Encoding] and
    [Connection]. *)
Theorem main_only_reads (py_str : pyval -> str) (h : host) (w : world) :
  exists evs,
    snd (main py_str h w) = {| net := net w; log := log w ++ evs |}
    /\ (forall r, In (EvRequest r) evs ->
          method r = GET /\ kwargs r = [] /\ json_payload r = None
          /\ timeout r = 20%Z
          /\ (forall name value,
                In (name, value) (make_headers (_clean_key (raw_env h))) ->
                In (name, value) (sent_headers r)
                /\ forall d, headers_get (sent_headers r) name d = value)
          /\ map fst (sent_headers r)
             = map fst default_headers
               ++ [lit "Authorization"; lit "X-Cisco-Meraki-API-Key";
                   lit "Content-Type"])
    /\ length (filter is_request evs) <= 15.
Proof.
  assert (Hx : extends (main_request h) 15 w (snd (main py_str h w))); cycle 1.
  { destruct Hx as (evs & E & G & L). exists evs.
    split; [exact E|]. split; [|exact L].
    intros r Hin. exact (main_request_headers (G r Hin)). }
  set (P := main_request h).
  unfold main.
  set (api := _clean_key (raw_env h)).
  set (s := meraki_session (make_headers api)).
  assert (HP : forall u, P (get_request s u [])) by (intros u; repeat split).
  pose proof (extends_events P (report h api) w (report_no_request h api)) as H1.
  set (w1 := log_events (report h api) w) in *.
  destruct (key_rejected api).
  { apply (extends_weaken (n := 0)); [lia | exact H1]. }
  match goal with
  | |- context [sanity_list_orgs s ?x] => set (w2 := x)
  end.
  assert (H2 : extends P 0 w w2).
  { apply (extends_trans (a := 0) (b := 0) H1). now apply extends_event. }
  pose proof (@reads_sanity P s (HP orgs_url) w2) as H3.
  destruct (sanity_list_orgs s w2) as [[v | e] w3]; simpl in H3.
  2: { apply (extends_weaken (n := 0 + 5)); [lia|]. exact (extends_trans H2 H3). }
  match goal with
  | |- context [find_org_id_by_name s _ ?x] => set (w4 := x)
  end.
  assert (H4 : extends P 5 w w4).
  { apply (extends_trans (a := 0 + 5) (b := 0) (extends_trans H2 H3)).
    now apply extends_event. }
  pose proof (@reads_find_org P s (organization_name CONFIG) (HP orgs_url) w4) as H5.
  destruct (find_org_id_by_name s (organization_name CONFIG) w4) as [[org_id | e] w5];
    simpl in H5.
  2: { apply (extends_weaken (n := 5 + 5)); [lia|]. exact (extends_trans H4 H5). }
  destruct (negb (py_truthy org_id)).
  { apply (extends_weaken (n := 5 + 5)); [lia|]. exact (extends_trans H4 H5). }
  match goal with
  | |- context [find_network_id s _ _ ?x] => set (w6 := x)
  end.
  assert (H6 : extends P 10 w w6).
  { apply (extends_trans (a := 5 + 5) (b := 0) (extends_trans H4 H5)).
    now apply extends_event. }
  pose proof (@reads_find_network P s (py_str org_id) (network_name CONFIG)
                (HP (nets_url (py_str org_id))) w6) as H7.
  destruct (find_network_id s (py_str org_id) (network_name CONFIG) w6)
    as [[net_id | e] w7]; simpl in H7.
  2: { exact (extends_trans H6 H7). }
  destruct (negb (py_truthy net_id)).
  { exact (extends_trans H6 H7). }
  apply (extends_trans (a := 10 + 5) (b := 0) (extends_trans H6 H7)).
  now apply extends_event.
Qed.

Lemma get_first_ok (s : session) (u : str) (kw : list (str * pyval))
    (w : world) (r : response) (v : pyval) :
  net w (requests_sent w) (get_request s u kw) = Resp r ->
  is_error_status (status_code r) = false ->
  json_body r = Some v ->
  _get s u kw w = (Ok v, log_event (EvRequest (get_request s u kw)) w).
Proof.
  intros Hnet Hst Hjs. apply retry_first_ok.
  unfold _get_attempt, bind, send. rewrite Hnet. now apply get_checks_json.
Qed.

Lemma sanity_on_dicts (s : session) (w w' : world) (items : list pyval) :
  _get s orgs_url [] w = (Ok (PyList items), w') ->
  forallb is_dict items = true ->
  sanity_list_orgs s w
  = (Ok PyNone,
     log_events [EvPrint (sanity_line (length items));
                 EvPrintVal (PyList (firstn 5 (map name_or_none items)))] w').
Proof.
  intros Hget Hd. unfold sanity_list_orgs, bind. rewrite Hget.
  unfold lift, print, print_val, emit, ret. cbn [py_len py_iter].
  rewrite (names_of_dicts items Hd).
  unfold log_event, log_events. cbn [net log]. now rewrite <- app_assoc.
Qed.

Lemma scan_none (items : list pyval) (name : str) :
  forallb (passed_over name) items = true ->
  scan_for_name items name = Ok PyNone.
Proof.
  intros H. rewrite <- (app_nil_r items). now rewrite scan_passed_over.
Qed.

Lemma key_accepted (h : host) :
  validate (raw_env h) = true -> key_rejected (_clean_key (raw_env h)) = false.
Proof. unfold validate. intros H. now apply negb_true_iff in H. Qed.

(** X26: with an accepted key, an organization list of dicts for the
    sanity check and then a list in which no entry is named as the
    configured organization, [main] stops on its first [assert] with
    "Organization not found": it has sent the two requests for the
    organization list and none for networks. *)
Theorem main_organization_not_found (py_str : pyval -> str) (h : host)
    (w : world) (r1 r2 : response) (orgs1 orgs2 : list pyval) :
  validate (raw_env h) = true ->
  net w (requests_sent w) (orgs_request h) = Resp r1 ->
  is_error_status (status_code r1) = false ->
  json_body r1 = Some (PyList orgs1) ->
  forallb is_dict orgs1 = true ->
  net w (S (requests_sent w)) (orgs_request h) = Resp r2 ->
  is_error_status (status_code r2) = false ->
  json_body r2 = Some (PyList orgs2) ->
  forallb (passed_over (organization_name CONFIG)) orgs2 = true ->
  fst (main py_str h w) = AssertionError (lit "Organization not found")
  /\ filter is_request (new_events w (snd (main py_str h w)))
     = [EvRequest (orgs_request h); EvRequest (orgs_request h)].
Proof.
  intros Hkey N1 S1 J1 D1 N2 S2 J2 P2.
  unfold orgs_request, main_session in *.
  unfold main. rewrite (key_accepted h Hkey).
  set (api := _clean_key (raw_env h)) in *.
  set (s := meraki_session (make_headers api)) in *.
  set (rq := get_request s orgs_url []) in *.
  match goal with
  | |- context [sanity_list_orgs s ?x] => set (w2 := x)
  end.
  assert (C2 : requests_sent w2 = requests_sent w).
  { unfold w2. rewrite requests_sent_other by reflexivity.
    apply requests_sent_events, report_no_request. }
  assert (G1 : _get s orgs_url [] w2 = (Ok (PyList orgs1), log_event (EvRequest rq) w2)).
  { apply (get_first_ok s orgs_url [] w2 (r := r1)); auto.
    rewrite C2. exact N1. }
  rewrite (sanity_on_dicts s w2 G1 D1).
  match goal with
  | |- context [find_org_id_by_name s _ ?x] => set (w4 := x)
  end.
  assert (C4 : requests_sent w4 = S (requests_sent w)).
  { unfold w4. rewrite requests_sent_other by reflexivity.
    rewrite requests_sent_events by reflexivity.
    rewrite requests_sent_request. now rewrite C2. }
  assert (G2 : _get s orgs_url [] w4 = (Ok (PyList orgs2), log_event (EvRequest rq) w4)).
  { apply (get_first_ok s orgs_url [] w4 (r := r2)); auto.
    rewrite C4. exact N2. }
  assert (F : find_org_id_by_name s (organization_name CONFIG) w4
              = (Ok PyNone, log_event (EvRequest rq) w4)).
  { unfold find_org_id_by_name, bind. rewrite G2. rewrite for_name_list.
    now rewrite (scan_none orgs2 (organization_name CONFIG) P2). }
  rewrite F. cbn [py_truthy negb fst snd]. split; [reflexivity|].
  unfold w4, w2, log_event, log_events. cbn [net log].
  rewrite <- !app_assoc. rewrite new_events_app, !filter_app, report_no_request.
  reflexivity.
Qed.

Lemma main_organization_not_found_witness :
  fst (main str_of_id (a_host (Some good_key))
         (start (always (ok_response (PyList two_orgs)))))
  = AssertionError (lit "Organization not found").
Proof.
  refine (proj1 (@main_organization_not_found str_of_id (a_host (Some good_key))
                   (start (always (ok_response (PyList two_orgs))))
                   (ok_response (PyList two_orgs)) (ok_response (PyList two_orgs))
                   two_orgs two_orgs
                   eq_refl eq_refl eq_refl eq_refl eq_refl
                   eq_refl eq_refl eq_refl eq_refl)).
Defined.

Lemma scan_finds (pre post : list pyval) (d : list (str * pyval))
    (name : str) (v : pyval) :
  forallb (passed_over name) pre = true ->
  has_name (PyDict d) name = true ->
  dict_get d (lit "id") = Some v ->
  scan_for_name (pre ++ PyDict d :: post) name = Ok v.
Proof.
  intros Hpre Hn Hid.
  rewrite (scan_passed_over pre (PyDict d :: post) name Hpre).
  rewrite (scan_match_first (PyDict d) post name Hn).
  unfold py_getitem. now rewrite Hid.
Qed.

(** X27: with an accepted key, when the organization lists answer and
    the configured organization is found with a non-empty string id, [main]
    asks for the networks of exactly that id; when the configured network is
    found there with an id that counts as true, [main] returns, having sent
    three requests: the organization list twice, then the network list. *)
Theorem main_resolves_network (py_str : pyval -> str) (h : host) (w : world)
    (r1 r2 r3 : response) (orgs1 pre post pre' post' : list pyval)
    (d d' : list (str * pyval)) (oid : str) (nid : pyval) :
  (forall s, py_str (PyStr s) = s) ->
  validate (raw_env h) = true ->
  net w (requests_sent w) (orgs_request h) = Resp r1 ->
  is_error_status (status_code r1) = false ->
  json_body r1 = Some (PyList orgs1) ->
  forallb is_dict orgs1 = true ->
  net w (S (requests_sent w)) (orgs_request h) = Resp r2 ->
  is_error_status (status_code r2) = false ->
  json_body r2 = Some (PyList (pre ++ PyDict d :: post)) ->
  forallb (passed_over (organization_name CONFIG)) pre = true ->
  has_name (PyDict d) (organization_name CONFIG) = true ->
  dict_get d (lit "id") = Some (PyStr oid) ->
  nonempty oid = true ->
  net w (S (S (requests_sent w))) (nets_request h oid) = Resp r3 ->
  is_error_status (status_code r3) = false ->
  json_body r3 = Some (PyList (pre' ++ PyDict d' :: post')) ->
  forallb (passed_over (network_name CONFIG)) pre' = true ->
  has_name (PyDict d') (network_name CONFIG) = true ->
  dict_get d' (lit "id") = Some nid ->
  py_truthy nid = true ->
  fst (main py_str h w) = Finished
  /\ filter is_request (new_events w (snd (main py_str h w)))
     = [EvRequest (orgs_request h); EvRequest (orgs_request h);
        EvRequest (nets_request h oid)].
Proof.
  intros Hstr Hkey N1 S1 J1 D1 N2 S2 J2 P2 M2 I2 T2 N3 S3 J3 P3 M3 I3 T3.
  unfold orgs_request, nets_request, main_session in *.
  unfold main. rewrite (key_accepted h Hkey).
  set (api := _clean_key (raw_env h)) in *.
  set (s := meraki_session (make_headers api)) in *.
  set (rq := get_request s orgs_url []) in *.
  set (rn := get_request s (nets_url oid) []) in *.
  match goal with
  | |- context [sanity_list_orgs s ?x] => set (w2 := x)
  end.
  assert (C2 : requests_sent w2 = requests_sent w).
  { unfold w2. rewrite requests_sent_other by reflexivity.
    apply requests_sent_events, report_no_request. }
  assert (G1 : _get s orgs_url [] w2 = (Ok (PyList orgs1), log_event (EvRequest rq) w2)).
  { apply (get_first_ok s orgs_url [] w2 (r := r1)); auto.
    rewrite C2. exact N1. }
  rewrite (sanity_on_dicts s w2 G1 D1).
  match goal with
  | |- context [find_org_id_by_name s _ ?x] => set (w4 := x)
  end.
  assert (C4 : requests_sent w4 = S (requests_sent w)).
  { unfold w4. rewrite requests_sent_other by reflexivity.
    rewrite requests_sent_events by reflexivity.
    rewrite requests_sent_request. now rewrite C2. }
  assert (G2 : _get s orgs_url [] w4
               = (Ok (PyList (pre ++ PyDict d :: post)), log_event (EvRequest rq) w4)).
  { apply (get_first_ok s orgs_url [] w4 (r := r2)); auto.
    rewrite C4. exact N2. }
  assert (F2 : find_org_id_by_name s (organization_name CONFIG) w4
               = (Ok (PyStr oid), log_event (EvRequest rq) w4)).
  { unfold find_org_id_by_name, bind. rewrite G2. rewrite for_name_list.
    now rewrite (scan_finds pre post d (organization_name CONFIG) P2 M2 I2). }
  rewrite F2. cbn [py_truthy]. rewrite T2. cbn [negb]. rewrite Hstr.
  match goal with
  | |- context [find_network_id s oid _ ?x] => set (w6 := x)
  end.
  assert (C6 : requests_sent w6 = S (S (requests_sent w))).
  { unfold w6. rewrite requests_sent_other by reflexivity.
    rewrite requests_sent_request. now rewrite C4. }
  assert (G3 : _get s (nets_url oid) [] w6
               = (Ok (PyList (pre' ++ PyDict d' :: post')), log_event (EvRequest rn) w6)).
  { apply (get_first_ok s (nets_url oid) [] w6 (r := r3)); auto.
    rewrite C6. exact N3. }
  assert (F3 : find_network_id s oid (network_name CONFIG) w6
               = (Ok nid, log_event (EvRequest rn) w6)).
  { unfold find_network_id, bind. rewrite G3. rewrite for_name_list.
    now rewrite (scan_finds pre' post' d' (network_name CONFIG) P3 M3 I3). }
  rewrite F3, T3. cbn [negb fst snd]. split; [reflexivity|].
  unfold w6, w4, w2, log_event, log_events. cbn [net log].
  rewrite <- !app_assoc. rewrite new_events_app, !filter_app, report_no_request.
  reflexivity.
Qed.

Lemma main_resolves_network_witness :
  fst (main str_of_id (a_host (Some good_key)) (start lab_transport)) = Finished.
Proof.
  refine (proj1 (@main_resolves_network str_of_id (a_host (Some good_key))
                   (start lab_transport)
                   (ok_response (PyList [entity "1" "A"; demo_org]))
                   (ok_response (PyList [entity "1" "A"; demo_org]))
                   (ok_response (PyList [api_network]))
                   [entity "1" "A"; demo_org] [entity "1" "A"] [] [] []
                   [(lit "id", PyStr (lit "549236")); (lit "name", PyStr (lit "Demo_Silvan"))]
                   [(lit "id", PyStr (lit "L_6468")); (lit "name", PyStr (lit "API Network"))]
                   (lit "549236") (PyStr (lit "L_6468"))
                   (fun s => eq_refl) eq_refl
                   eq_refl eq_refl eq_refl eq_refl
                   eq_refl eq_refl eq_refl eq_refl eq_refl eq_refl eq_refl
                   eq_refl eq_refl eq_refl eq_refl eq_refl eq_refl eq_refl)).
Defined.

(** ** Where the key comes from *)

Lemma dict_get_app {V : Type} (a b : list (str * V)) (k : str) :
  dict_get (a ++ b) k
  = match dict_get a k with
    | Some v => Some v
    | None => dict_get b k
    end.
Proof.
  induction a as [|[k0 v0] a IH]; [reflexivity|]. simpl.
  destruct (str_eqb k0 k); [reflexivity | exact IH].
Qed.

Lemma load_dotenv_get (file env : list (str * str)) (k : str) :
  dict_get (load_dotenv file env) k
  = match dict_get env k with
    | Some v => Some v
    | None => dict_get file k
    end.
Proof.
  revert env. induction file as [|[k0 v0] rest IH]; intros env.
  - simpl. destruct (dict_get env k); reflexivity.
  - cbn [load_dotenv]. rewrite IH. cbn [dict_get].
    destruct (dict_get env k0) eqn:E0.
    + destruct (dict_get env k) eqn:Ek; [reflexivity|].
      destruct (str_eqb k0 k) eqn:Hk; [|reflexivity].
      apply str_eqb_eq in Hk. subst k0. congruence.
    + rewrite dict_get_app. destruct (dict_get env k) eqn:Ek; [reflexivity|].
      cbn [dict_get]. destruct (str_eqb k0 k); reflexivity.
Qed.

(** X28: a key already in the environment of the process wins over the
    one in the [.env] file, also when it is the empty string; the file is
    used only when the environment has no such variable, and without file
    and variable there is no key. *)
Theorem exported_key_wins (h : host) :
  raw_env h
  = match dict_get (environ h) key_name with
    | Some v => Some v
    | None =>
        match dotenv_file h with
        | Some file => dict_get file key_name
        | None => None
        end
    end.
Proof.
  unfold raw_env, environ_after_load, key_name.
  destruct (dotenv_file h) as [file|].
  - apply load_dotenv_get.
  - destruct (dict_get (environ h) (lit "MERAKI_API_KEY_ENAUTO")); reflexivity.
Qed.
